(** * AKSOL control panel: the transaction submission handlers

    A shallow embedding of the client-side code that submits transfers:

    - [App.logAction]            (src/App.tsx)
    - [PurchaseCard.handleSubmit] (components/PurchaseCard.tsx)
    - [TaxedSendCard.handleSubmit], in its three revisions
      ([TaxedSendBasic], [TaxedSendDual], [TaxedSendAdapter])
    - [solanaTx.decodeTransaction] (src/lib/solanaTx.ts)
    - [StatusCard.handleCheckStatus], [StorefrontPurchaseCard.handleSubmit],
      [PriceTickerBar.fetchPrices], [WalletOverview.formatAgo],
      [api.postJson], [networkConfig.NETWORKS], [ActivityCard.explorerUrl]
      and the abbreviated signature [trimmedSig]

    JavaScript values are an inductive type with the language's truthiness,
    the asynchronous handlers are computations in a small monad that threads
    the React state, records every call to an external collaborator in a
    trace, and propagates [throw] and the early [return]. The collaborators
    the handlers do not own (the wallet, the RPC connection, the backend,
    the web3.js parsers, a few built-ins) are fields of records passed in. *)

From Stdlib Require Import ZArith NArith List String Ascii Bool Lia DecimalString.
Import ListNotations.
Local Open Scope string_scope.
Local Open Scope list_scope.
Set Warnings "-register-all".

(* ------------------------------------------------------------------ *)
(** ** JavaScript values *)

(** A JS number: NaN, the two infinities, or a finite double [m * 2^e]. *)
Inductive jsnum : Type :=
| JNaN
| JPosInf
| JNegInf
| JFinite (m e : Z).

(** [Number.isFinite(n)] *)
Definition Number_isFinite (n : jsnum) : bool :=
  match n with JFinite _ _ => true | _ => false end.

(** [n <= 0]; every comparison with NaN is false. *)
Definition num_le0 (n : jsnum) : bool :=
  match n with
  | JNaN => false
  | JPosInf => false
  | JNegInf => true
  | JFinite m _ => (m <=? 0)%Z
  end.

Inductive jsval : Type :=
| JUndefined
| JNull
| JBool (b : bool)
| JNum (n : jsnum)
| JStr (s : string)
| JArr (xs : list jsval)
| JObj (fields : list (string * jsval)).

(** ToBoolean *)
Definition truthy (v : jsval) : bool :=
  match v with
  | JUndefined | JNull => false
  | JBool b => b
  | JNum JNaN => false
  | JNum (JFinite m _) => negb (m =? 0)%Z
  | JNum _ => true
  | JStr s => negb (s =? "")
  | JArr _ | JObj _ => true
  end.

(** [a || b] and [a && b] on values *)
Definition js_or (a b : jsval) : jsval := if truthy a then a else b.
Definition js_and (a b : jsval) : jsval := if truthy a then b else a.

Fixpoint assoc (k : string) (fs : list (string * jsval)) : jsval :=
  match fs with
  | [] => JUndefined
  | (k', v) :: fs' => if k =? k' then v else assoc k fs'
  end.

(** [v.k] on a value that is neither [null] nor [undefined]: own data
    properties of an object, [undefined] everywhere else (none of the names
    the handlers read is a built-in property of a primitive or an array). *)
Definition prop (v : jsval) (k : string) : jsval :=
  match v with
  | JObj fs => assoc k fs
  | _ => JUndefined
  end.

Definition is_nullish (v : jsval) : bool :=
  match v with JUndefined | JNull => true | _ => false end.

(** [new Error(msg)]: only [message] is ever read back. *)
Definition Error (msg : string) : jsval := JObj [("message", JStr msg)].

(** The message extraction every [catch] block of the handlers performs:
<<
  (err && typeof err.message === "string" && err.message) ||
  (typeof err === "string" && err) ||
  dflt
>> *)
Definition catch_message (dflt : string) (err : jsval) : string :=
  let first :=
    js_and (js_and err
                   (JBool (match prop err "message" with JStr _ => true | _ => false end)))
           (prop err "message") in
  let second :=
    js_and (JBool (match err with JStr _ => true | _ => false end)) err in
  match js_or (js_or first second) (JStr dflt) with
  | JStr s => s
  | _ => dflt
  end.

(** Results of calls into code the repository does not own. *)
Inductive result (A : Type) : Type :=
| Ok (a : A)
| Err (e : jsval).
Arguments Ok {A} a.
Arguments Err {A} e.

(** Decimal rendering of an integer inside a template literal. *)
Definition string_of_Z (z : Z) : string := NilZero.string_of_int (Z.to_int z).

(* ------------------------------------------------------------------ *)
(** ** Strings: [trim], [length] and [slice] *)

(** Text is held in its UTF-8 encoding, one [ascii] per byte: the labels and
    messages of the source that leave ASCII (an arrow, an ellipsis) are
    written that way below. The built-ins that look at characters are
    therefore written over that encoding. *)

(** The white space and line terminators of ECMAScript that take one byte:
    TAB, LF, VT, FF, CR and the space. *)
Definition is_space1 (b : nat) : bool :=
  (Nat.eqb b 9) || (Nat.eqb b 10) || (Nat.eqb b 11) || (Nat.eqb b 12)
  || (Nat.eqb b 13) || (Nat.eqb b 32).

(** U+00A0, the no-break space: [C2 A0]. *)
Definition is_space2 (b1 b2 : nat) : bool :=
  (Nat.eqb b1 194) && (Nat.eqb b2 160).

(** Those that take three bytes: U+1680 [E1 9A 80]; U+2000 to U+200A,
    U+2028, U+2029 and U+202F [E2 80 80..8A, A8, A9, AF]; U+205F
    [E2 81 9F]; U+3000 [E3 80 80]; U+FEFF [EF BB BF]. *)
Definition is_space3 (b1 b2 b3 : nat) : bool :=
  ((Nat.eqb b1 225) && (Nat.eqb b2 154) && (Nat.eqb b3 128))
  || ((Nat.eqb b1 226) && (Nat.eqb b2 128)
      && (((128 <=? b3)%nat && (b3 <=? 138)%nat)
          || (Nat.eqb b3 168) || (Nat.eqb b3 169) || (Nat.eqb b3 175)))
  || ((Nat.eqb b1 226) && (Nat.eqb b2 129) && (Nat.eqb b3 159))
  || ((Nat.eqb b1 227) && (Nat.eqb b2 128) && (Nat.eqb b3 128))
  || ((Nat.eqb b1 239) && (Nat.eqb b2 187) && (Nat.eqb b3 191)).

(** [String.prototype.trimStart] *)
Fixpoint trim_start (s : string) : string :=
  match s with
  | EmptyString => EmptyString
  | String c1 s1 =>
      if is_space1 (nat_of_ascii c1) then trim_start s1
      else
        match s1 with
        | EmptyString => s
        | String c2 s2 =>
            if is_space2 (nat_of_ascii c1) (nat_of_ascii c2) then trim_start s2
            else
              match s2 with
              | EmptyString => s
              | String c3 s3 =>
                  if is_space3 (nat_of_ascii c1) (nat_of_ascii c2) (nat_of_ascii c3)
                  then trim_start s3
                  else s
              end
        end
  end.

(** The same from the other end, on the reversed bytes: a character's last
    byte comes first. *)
Fixpoint trim_start_rev (s : string) : string :=
  match s with
  | EmptyString => EmptyString
  | String c1 s1 =>
      if is_space1 (nat_of_ascii c1) then trim_start_rev s1
      else
        match s1 with
        | EmptyString => s
        | String c2 s2 =>
            if is_space2 (nat_of_ascii c2) (nat_of_ascii c1) then trim_start_rev s2
            else
              match s2 with
              | EmptyString => s
              | String c3 s3 =>
                  if is_space3 (nat_of_ascii c3) (nat_of_ascii c2) (nat_of_ascii c1)
                  then trim_start_rev s3
                  else s
              end
        end
  end.

Fixpoint rev_string (s acc : string) : string :=
  match s with
  | EmptyString => acc
  | String c s' => rev_string s' (String c acc)
  end.

(** [String.prototype.trimEnd] *)
Definition trim_end (s : string) : string :=
  rev_string (trim_start_rev (rev_string s "")) "".

(** [String.prototype.trim] *)
Definition trim (s : string) : string := trim_end (trim_start s).

(** The UTF-16 code units one byte of the encoding accounts for: a
    continuation byte none, the first byte of a character one, and two when
    it opens a four-byte character (a surrogate pair). *)
Definition code_units_of_byte (b : nat) : nat :=
  if (b <? 128)%nat then 1
  else if (b <? 192)%nat then 0
  else if (b <? 240)%nat then 1
  else 2.

(** [s.length] *)
Fixpoint js_length (s : string) : nat :=
  match s with
  | EmptyString => 0
  | String c s' => code_units_of_byte (nat_of_ascii c) + js_length s'
  end.

(** [s.slice(i, j)] for [0 <= i <= j] *)
Definition slice (i j : nat) (s : string) : string := substring i (j - i) s.

(* ------------------------------------------------------------------ *)
(** ** The activity log (src/App.tsx) *)

Record ActivityItem : Type := mkItem {
  id : string;
  label : string;
  timestamp : string;
  signature : jsval          (* [undefined] when the caller passed none *)
}.

(** The clock and the random source [logAction] reads, as functions of the
    number of calls made so far. *)
Record Clock : Type := {
  Date_now : nat -> Z;
  Math_random_36 : nat -> string;     (* Math.random().toString(36) *)
  Date_toISOString : nat -> string
}.

Module App.

Record State : Type := mkState {
  publicMode : bool;
  activities : list ActivityItem;
  tick : nat
}.

(** [useState(DEFAULT_PUBLIC_MODE)], [useState([])] *)
Definition DEFAULT_PUBLIC_MODE : bool := true.
Definition init : State := mkState DEFAULT_PUBLIC_MODE [] 0.

Definition toggleMode (st : State) : State :=
  mkState (negb (publicMode st)) (activities st) (tick st).

Definition new_item (clk : Clock) (t : nat) (lbl : string) (sig : jsval)
  : ActivityItem :=
  mkItem (string_of_Z (Date_now clk t) ++ "-" ++ slice 2 8 (Math_random_36 clk t))
         lbl
         (Date_toISOString clk t)
         sig.

(** [setActivities((prev) => [item, ...prev].slice(0, 3))] *)
Definition logAction (clk : Clock) (lbl : string) (sig : jsval) (st : State)
  : State :=
  let item := new_item clk (tick st) lbl sig in
  mkState (publicMode st) (firstn 3 (item :: activities st)) (S (tick st)).

(** What a user or a card can do to the application state. *)
Inductive Op : Type :=
| OpToggle
| OpLog (lbl : string) (sig : jsval).

Definition step (clk : Clock) (st : State) (op : Op) : State :=
  match op with
  | OpToggle => toggleMode st
  | OpLog lbl sig => logAction clk lbl sig st
  end.

Definition run (clk : Clock) (ops : list Op) : State :=
  fold_left (step clk) ops init.

(** The records the log operations of [ops] create, oldest first. *)
Fixpoint logged (clk : Clock) (t : nat) (ops : list Op) : list ActivityItem :=
  match ops with
  | [] => []
  | OpToggle :: ops' => logged clk t ops'
  | OpLog lbl sig :: ops' => new_item clk t lbl sig :: logged clk (S t) ops'
  end.

End App.

(* ------------------------------------------------------------------ *)
(** ** Transactions and the collaborators the handlers are given *)

(** A legacy web3.js [Transaction]: an opaque payload and the one field the
    handlers write. *)
Record Transaction : Type := mkTx {
  tx_payload : list Byte.byte;
  feePayer : option string
}.

Definition set_feePayer (tx : Transaction) (pk : string) : Transaction :=
  mkTx (tx_payload tx) (Some pk).

Record VersionedTransaction : Type := mkVtx {
  vtx_payload : list Byte.byte
}.

(** [type AnyTransaction = Transaction | VersionedTransaction] *)
Inductive AnyTransaction : Type :=
| Legacy (tx : Transaction)
| Versioned (vtx : VersionedTransaction).

(** The body of the POST request, before [JSON.stringify]. *)
Record Request : Type := mkReq {
  fromPubkey : string;
  toPubkey : option string;
  amountUi : jsnum;
  cluster : string
}.

(** A [fetch] response: its status and what [resp.json()] settles to. *)
Record Response : Type := mkResp {
  status : Z;
  resp_json : result jsval
}.

(** [resp.ok] *)
Definition resp_ok (r : Response) : bool :=
  (200 <=? status r)%Z && (status r <=? 299)%Z.

Record Wallet : Type := {
  connected : bool;
  publicKey : option string;                                   (* base58 *)
  signTransaction : option (Transaction -> result Transaction);
  sendTransaction : Transaction -> string -> result string
}.

Record Connection : Type := {
  sendRawTransaction : list Byte.byte -> result string;
  confirmTransaction : string -> string -> result jsval
}.

Inductive NetworkName : Type := devnet | mainnet_beta.

Definition NetworkName_str (n : NetworkName) : string :=
  match n with devnet => "devnet" | mainnet_beta => "mainnet-beta" end.

Record AksolNetworkConfig : Type := {
  net_name : NetworkName;
  net_label : string;
  rpcUrl : string
}.

(** Everything a handler reads from outside: built-ins of the host, the
    web3.js library, the injected wallet and connection, the backend, the
    build-time environment and the props of the component. *)
Record Env : Type := {
  clock : Clock;
  (* built-ins *)
  Number : string -> jsnum;
  ToString_other : jsval -> string;          (* numbers, arrays, objects *)
  TypeError : string -> jsval;               (* reading [k] of null/undefined *)
  atob_error : jsval;                        (* InvalidCharacterError *)
  Buffer_from_base64 : jsval -> result (list Byte.byte);
  (* @solana/web3.js *)
  VersionedTransaction_deserialize : list Byte.byte -> result VersionedTransaction;
  Transaction_from : list Byte.byte -> result Transaction;
  Transaction_serialize : Transaction -> result (list Byte.byte);
  Connection_new : string -> string -> result unit;
  (* injected capabilities *)
  wallet : Wallet;
  connection : Connection;
  fetch : string -> Request -> result Response;
  (* import.meta.env *)
  VITE_BACKEND_BASE_URL : option string;
  VITE_SOLANA_CLUSTER : option string;
  (* props *)
  isMainnet : bool;
  networkConfig : AksolNetworkConfig;
  walletPublicKey : option string;
  backendBaseUrl : option string
}.

(** [x || dflt] for an optional string *)
Definition or_default (x : option string) (dflt : string) : string :=
  match x with
  | Some s => if s =? "" then dflt else s
  | None => dflt
  end.

(** An optional string that passed a truthiness test: present and not
    empty. *)
Definition nonempty (x : option string) : option string :=
  match x with
  | Some s => if s =? "" then None else Some s
  | None => None
  end.

(** ToString *)
Definition ToString (env : Env) (v : jsval) : string :=
  match v with
  | JStr s => s
  | JUndefined => "undefined"
  | JNull => "null"
  | JBool true => "true"
  | JBool false => "false"
  | _ => ToString_other env v
  end.

(* ------------------------------------------------------------------ *)
(** ** The handler monad: state, trace, [throw] and [return] *)

(** Calls that leave the component, in the order they are made. *)
Inductive Event : Type :=
| EvFetch (url : string) (req : Request)
| EvVersionedDeserialize (bytes : list Byte.byte)
| EvTransactionFrom (bytes : list Byte.byte)
| EvSignTransaction (tx : Transaction)
| EvSendRawTransaction (raw : list Byte.byte)
| EvConfirmTransaction (sig : string) (commitment : string)
| EvSendTransaction (tx : Transaction) (rpc : string)
| EvLogAction (lbl : string) (sig : jsval).

(** The React state a card owns ([toAddress], [amount]/[amountUi],
    [loading], [error], [lastSig]/[txSig]) and the state of [App]. *)
Record World : Type := mkWorld {
  toAddress : string;
  amount : string;
  loading : bool;
  error : option string;
  lastSig : option jsval;
  app : App.State
}.

Inductive completion (A : Type) : Type :=
| Normal (a : A)
| Throw (e : jsval)
| Return.
Arguments Normal {A} a.
Arguments Throw {A} e.
Arguments Return {A}.

Definition M (A : Type) : Type := World -> completion A * World * list Event.

Definition ret {A} (a : A) : M A := fun w => (Normal a, w, []).

Definition bind {A B} (m : M A) (k : A -> M B) : M B :=
  fun w =>
    match m w with
    | (Normal a, w1, t1) =>
        match k a w1 with
        | (c, w2, t2) => (c, w2, t1 ++ t2)
        end
    | (Throw e, w1, t1) => (Throw e, w1, t1)
    | (Return, w1, t1) => (Return, w1, t1)
    end.

Declare Scope js_scope.
Delimit Scope js_scope with js.
Notation "x <- m ;; k" := (bind m (fun x => k))
  (at level 61, m at next level, right associativity) : js_scope.
Notation "m ;; k" := (bind m (fun _ => k))
  (at level 61, right associativity) : js_scope.
Local Open Scope js_scope.

Definition throw {A} (e : jsval) : M A := fun w => (Throw e, w, []).
Definition return_ {A} : M A := fun w => (Return, w, []).

(** A call into a collaborator: recorded, then settled. *)
Definition call {A} (ev : Event) (r : result A) : M A :=
  fun w => (match r with Ok a => Normal a | Err e => Throw e end, w, [ev]).

(** The same for a pure built-in or library function, which leaves no trace. *)
Definition lift {A} (r : result A) : M A :=
  fun w => (match r with Ok a => Normal a | Err e => Throw e end, w, []).

(** [try { body } catch (err) { handler err } finally { fin }] *)
Definition try_catch_finally (body : M unit) (handler : jsval -> M unit)
  (fin : M unit) : M unit :=
  fun w =>
    let '(c1, w1, t1) :=
      match body w with
      | (Throw e, w', t') =>
          match handler e w' with
          | (c, w'', t'') => (c, w'', t' ++ t'')
          end
      | other => other
      end in
    match fin w1 with
    | (Normal _, w2, t2) => (c1, w2, t1 ++ t2)
    | (c2, w2, t2) => (c2, w2, t1 ++ t2)
    end.

(** [try { body } catch { handler }] for a function that returns a value. *)
Definition try_catch {A} (body : M A) (handler : jsval -> M A) : M A :=
  fun w =>
    match body w with
    | (Throw e, w', t') =>
        match handler e w' with
        | (c, w'', t'') => (c, w'', t' ++ t'')
        end
    | other => other
    end.

(** Running an event handler: a [return] ends it normally; what it leaves
    behind is the new state, the trace, and the exception that escaped, if
    any. *)
Definition run_handler (m : M unit) (w : World)
  : option jsval * World * list Event :=
  match m w with
  | (Throw e, w', t) => (Some e, w', t)
  | (_, w', t) => (None, w', t)
  end.

(** [v.k], which throws a [TypeError] on [null] and [undefined]. *)
Definition get (env : Env) (v : jsval) (k : string) : M jsval :=
  if is_nullish v then throw (TypeError env k) else ret (prop v k).

Definition setError (e : option string) : M unit :=
  fun w => (Normal tt,
            mkWorld (toAddress w) (amount w) (loading w) e (lastSig w) (app w), []).

Definition setLastSig (s : option jsval) : M unit :=
  fun w => (Normal tt,
            mkWorld (toAddress w) (amount w) (loading w) (error w) s (app w), []).

Definition setLoading (b : bool) : M unit :=
  fun w => (Normal tt,
            mkWorld (toAddress w) (amount w) b (error w) (lastSig w) (app w), []).

Definition read {A} (f : World -> A) : M A := fun w => (Normal (f w), w, []).

(** The [logAction] prop, bound by [App] to its own [logAction]. *)
Definition logAction (env : Env) (lbl : string) (sig : jsval) : M unit :=
  fun w => (Normal tt,
            mkWorld (toAddress w) (amount w) (loading w) (error w) (lastSig w)
                    (App.logAction (clock env) lbl sig (app w)),
            [EvLogAction lbl sig]).

(* ------------------------------------------------------------------ *)
(** ** [atob]: the forgiving base64 decoder of the HTML standard *)

Definition is_ascii_whitespace (c : ascii) : bool :=
  let n := nat_of_ascii c in
  (Nat.eqb n 9) || (Nat.eqb n 10) || (Nat.eqb n 12) || (Nat.eqb n 13)
  || (Nat.eqb n 32).

Fixpoint remove_whitespace (s : string) : list ascii :=
  match s with
  | EmptyString => []
  | String c s' =>
      if is_ascii_whitespace c then remove_whitespace s'
      else c :: remove_whitespace s'
  end.

(** One or two trailing [=] are dropped when the length is a multiple of 4. *)
Definition strip_padding (cs : list ascii) : list ascii :=
  if Nat.eqb (Nat.modulo (List.length cs) 4) 0 then
    match rev cs with
    | "="%char :: "="%char :: r => rev r
    | "="%char :: r => rev r
    | _ => cs
    end
  else cs.

Definition base64_index (c : ascii) : option N :=
  let n := N_of_ascii c in
  if (65 <=? n)%N && (n <=? 90)%N then Some (n - 65)%N
  else if (97 <=? n)%N && (n <=? 122)%N then Some (n - 71)%N
  else if (48 <=? n)%N && (n <=? 57)%N then Some (n + 4)%N
  else if (n =? 43)%N then Some 62%N
  else if (n =? 47)%N then Some 63%N
  else None.

Fixpoint base64_indices (cs : list ascii) : option (list N) :=
  match cs with
  | [] => Some []
  | c :: cs' =>
      match base64_index c, base64_indices cs' with
      | Some v, Some vs => Some (v :: vs)
      | _, _ => None
      end
  end.

Definition low_byte (n : N) : ascii := ascii_of_N (n mod 256).

(** Four sextets give three bytes; a tail of three gives two bytes and a
    tail of two gives one, the spare low bits being discarded. *)
Fixpoint base64_bytes (vs : list N) : list ascii :=
  match vs with
  | a :: b :: c :: d :: rest =>
      let n := (a * 262144 + b * 4096 + c * 64 + d)%N in
      low_byte (n / 65536) :: low_byte (n / 256) :: low_byte n
        :: base64_bytes rest
  | [a; b; c] =>
      let n := ((a * 4096 + b * 64 + c) / 4)%N in
      [low_byte (n / 256); low_byte n]
  | [a; b] =>
      let n := ((a * 64 + b) / 16)%N in
      [low_byte n]
  | _ => []
  end.

Definition forgiving_base64_decode (data : string) : option string :=
  let cs := strip_padding (remove_whitespace data) in
  if Nat.eqb (Nat.modulo (List.length cs) 4) 1 then None
  else
    match base64_indices cs with
    | None => None
    | Some vs => Some (string_of_list_ascii (base64_bytes vs))
    end.

(** [atob(data)]: the decoded binary string, or an [InvalidCharacterError]. *)
Definition atob (env : Env) (data : string) : result string :=
  match forgiving_base64_decode data with
  | Some binary => Ok binary
  | None => Err (atob_error env)
  end.

(** The loop [bytes[i] = binary.charCodeAt(i)] over a binary string. *)
Fixpoint char_codes (binary : string) : list Byte.byte :=
  match binary with
  | EmptyString => []
  | String c rest => byte_of_ascii c :: char_codes rest
  end.

Local Open Scope js_scope.

(* ------------------------------------------------------------------ *)
(** ** src/lib/solanaTx.ts *)

Module solanaTx.

Definition base64ToUint8Array (env : Env) (base64 : string) : M (list Byte.byte) :=
  binary <- lift (atob env base64) ;;
  ret (char_codes binary).

Definition decodeTransaction (env : Env) (base64 : string) : M AnyTransaction :=
  bytes <- base64ToUint8Array env base64 ;;
  (* Try VersionedTransaction first *)
  try_catch
    (vtx <- call (EvVersionedDeserialize bytes)
                 (VersionedTransaction_deserialize env bytes) ;;
     ret (Versioned vtx))
    (fun _ =>
       (* Fallback to legacy Transaction *)
       tx <- call (EvTransactionFrom bytes) (Transaction_from env bytes) ;;
       ret (Legacy tx)).

End solanaTx.

(** The tail every signing handler shares once it holds the decoded
    transaction: set the fee payer, sign, send the raw bytes, confirm. *)
Definition sign_send_confirm (env : Env) (pk : string)
  (sign : Transaction -> result Transaction) (tx0 : Transaction) : M string :=
  let tx := set_feePayer tx0 pk in
  signed <- call (EvSignTransaction tx) (sign tx) ;;
  raw <- lift (Transaction_serialize env signed) ;;
  sig <- call (EvSendRawTransaction raw) (sendRawTransaction (connection env) raw) ;;
  _ <- call (EvConfirmTransaction sig "confirmed")
            (confirmTransaction (connection env) sig "confirmed") ;;
  ret sig.

(* ------------------------------------------------------------------ *)
(** ** components/PurchaseCard.tsx *)

Module PurchaseCard.

Definition backendBaseUrl (env : Env) : string :=
  or_default (VITE_BACKEND_BASE_URL env) "http://localhost:8080".
Definition cluster (env : Env) : string :=
  or_default (VITE_SOLANA_CLUSTER env) "devnet".

Definition handleSubmit (env : Env) : M unit :=
  setError None ;;
  setLastSig None ;;
  match connected (wallet env), publicKey (wallet env) with
  | true, Some pk =>
      match signTransaction (wallet env) with
      | None =>
          setError (Some "Current wallet does not support transaction signing.") ;;
          logAction env "0% purchase failed: wallet cannot sign" JUndefined ;;
          return_
      | Some sign =>
          amt <- read amount ;;
          let parsedAmount := Number env amt in
          if negb (Number_isFinite parsedAmount) || num_le0 parsedAmount then
            setError (Some "Amount must be a positive number.") ;;
            return_
          else
            setLoading true ;;
            try_catch_finally
              (resp <- call (EvFetch (backendBaseUrl env ++ "/aksol/zero-percent-purchase")
                                     (mkReq pk None parsedAmount (cluster env)))
                            (fetch env (backendBaseUrl env ++ "/aksol/zero-percent-purchase")
                                   (mkReq pk None parsedAmount (cluster env))) ;;
               if negb (resp_ok resp) then
                 throw (Error ("Backend HTTP " ++ string_of_Z (status resp)))
               else
                 data <- lift (resp_json resp) ;;
                 ok <- get env data "ok" ;;
                 if negb (truthy ok) || negb (truthy (prop data "transaction")) then
                   throw (Error (ToString env
                     (js_or (prop data "error")
                            (JStr "Backend did not return a transaction."))))
                 else
                   bytes <- lift (Buffer_from_base64 env (prop data "transaction")) ;;
                   tx <- call (EvTransactionFrom bytes) (Transaction_from env bytes) ;;
                   sig <- sign_send_confirm env pk sign tx ;;
                   setLastSig (Some (JStr sig)) ;;
                   logAction env "0% route purchase submitted" (JStr sig))
              (fun err =>
                 let msg := catch_message "0% purchase failed." err in
                 setError (Some msg) ;;
                 logAction env ("0% purchase failed: " ++ msg) JUndefined)
              (setLoading false)
      end
  | _, _ =>
      setError (Some "Connect a wallet before using the 0% route.") ;;
      logAction env "0% purchase failed: no wallet connected" JUndefined ;;
      return_
  end.

End PurchaseCard.

(* ------------------------------------------------------------------ *)
(** ** components/TaxedSendCard.tsx, first revision: the backend always
       returns a transaction to sign *)

Module TaxedSendBasic.

Definition backendBaseUrl (env : Env) : string :=
  or_default (VITE_BACKEND_BASE_URL env) "http://localhost:8080".
Definition cluster (env : Env) : string :=
  or_default (VITE_SOLANA_CLUSTER env) "devnet".

Definition handleSubmit (env : Env) : M unit :=
  setError None ;;
  setLastSig None ;;
  match connected (wallet env), publicKey (wallet env) with
  | true, Some pk =>
      match signTransaction (wallet env) with
      | None =>
          setError (Some "Current wallet does not support transaction signing.") ;;
          logAction env "Taxed send failed: wallet cannot sign" JUndefined ;;
          return_
      | Some sign =>
          to <- read toAddress ;;
          amt <- read amount ;;
          let trimmedTo := trim to in
          let parsedAmount := Number env amt in
          if trimmedTo =? "" then
            setError (Some "Please enter a recipient address.") ;;
            return_
          else if negb (Number_isFinite parsedAmount) || num_le0 parsedAmount then
            setError (Some "Amount must be a positive number.") ;;
            return_
          else
            setLoading true ;;
            try_catch_finally
              (resp <- call (EvFetch (backendBaseUrl env ++ "/aksol/send-taxed-tx")
                                     (mkReq pk (Some trimmedTo) parsedAmount (cluster env)))
                            (fetch env (backendBaseUrl env ++ "/aksol/send-taxed-tx")
                                   (mkReq pk (Some trimmedTo) parsedAmount (cluster env))) ;;
               if negb (resp_ok resp) then
                 throw (Error ("Backend HTTP " ++ string_of_Z (status resp)))
               else
                 data <- lift (resp_json resp) ;;
                 ok <- get env data "ok" ;;
                 if negb (truthy ok) || negb (truthy (prop data "transaction")) then
                   throw (Error (ToString env
                     (js_or (prop data "error")
                            (JStr "Backend did not return a transaction."))))
                 else
                   bytes <- lift (Buffer_from_base64 env (prop data "transaction")) ;;
                   tx <- call (EvTransactionFrom bytes) (Transaction_from env bytes) ;;
                   (* feePayer is already set in backend, but enforce wallet as signer *)
                   sig <- sign_send_confirm env pk sign tx ;;
                   setLastSig (Some (JStr sig)) ;;
                   logAction env "Taxed send submitted" (JStr sig))
              (fun err =>
                 let msg := catch_message "Taxed send failed." err in
                 setError (Some msg) ;;
                 logAction env ("Taxed send failed: " ++ msg) JUndefined)
              (setLoading false)
      end
  | _, _ =>
      setError (Some "Connect a wallet before sending with tax.") ;;
      logAction env "Taxed send failed: no wallet connected" JUndefined ;;
      return_
  end.

End TaxedSendBasic.

(** [data.transaction || data.tx || data.txBase64 || data.serializedTx] *)
Definition transaction_of (data : jsval) : jsval :=
  js_or (js_or (js_or (prop data "transaction") (prop data "tx"))
               (prop data "txBase64"))
        (prop data "serializedTx").

(* ------------------------------------------------------------------ *)
(** ** components/TaxedSendCard.tsx, second revision: the backend either
       broadcasts itself (CASE A) or returns a transaction (CASE B) *)

Module TaxedSendDual.

Definition backendBaseUrl (env : Env) : string :=
  or_default (VITE_BACKEND_BASE_URL env) "http://localhost:8080".
Definition cluster (env : Env) : string :=
  if isMainnet env then "mainnet-beta" else "devnet".
Definition modeLabel (env : Env) : string :=
  if isMainnet env then "MAINNET" else "devnet".

(** [data.signature || data.txSignature || data.transactionSignature || data.sig] *)
Definition signature_of (data : jsval) : jsval :=
  js_or (js_or (js_or (prop data "signature") (prop data "txSignature"))
               (prop data "transactionSignature"))
        (prop data "sig").

Definition handleSubmit (env : Env) : M unit :=
  setError None ;;
  setLastSig None ;;
  match connected (wallet env), publicKey (wallet env) with
  | true, Some pk =>
      match signTransaction (wallet env) with
      | None =>
          setError (Some "Current wallet does not support transaction signing.") ;;
          logAction env "Taxed send failed: wallet cannot sign" JUndefined ;;
          return_
      | Some sign =>
          amt <- read amount ;;
          to <- read toAddress ;;
          let parsedAmount := Number env amt in
          if negb (Number_isFinite parsedAmount) || num_le0 parsedAmount then
            setError (Some "Amount must be a positive number.") ;;
            return_
          else if (to =? "") || (js_length (trim to) <? 8)%nat then
            setError (Some "AKSOL recipient address looks incomplete.") ;;
            return_
          else
            setLoading true ;;
            try_catch_finally
              (resp <- call (EvFetch (backendBaseUrl env ++ "/aksol/send-taxed-tx")
                                     (mkReq pk (Some (trim to)) parsedAmount (cluster env)))
                            (fetch env (backendBaseUrl env ++ "/aksol/send-taxed-tx")
                                   (mkReq pk (Some (trim to)) parsedAmount (cluster env))) ;;
               if negb (resp_ok resp) then
                 throw (Error ("Backend HTTP " ++ string_of_Z (status resp)))
               else
                 data <- lift (resp_json resp) ;;
                 (* CASE A: backend already broadcasted and returns a signature *)
                 _ <- get env data "signature" ;;
                 let sig0 := signature_of data in
                 if truthy sig0 then
                   setLastSig (Some sig0) ;;
                   logAction env ("Taxed send (" ++ modeLabel env ++ ")") sig0 ;;
                   return_
                 else
                   (* CASE B: backend returns a serialized transaction we must sign+send *)
                   let base64Tx := transaction_of data in
                   if negb (truthy base64Tx) then
                     throw (Error "Backend did not return a signature or transaction. Check console logs for full response.")
                   else
                     bytes <- lift (Buffer_from_base64 env base64Tx) ;;
                     tx <- call (EvTransactionFrom bytes) (Transaction_from env bytes) ;;
                     sig <- sign_send_confirm env pk sign tx ;;
                     setLastSig (Some (JStr sig)) ;;
                     logAction env ("Taxed send (" ++ modeLabel env ++ ")") (JStr sig))
              (fun err =>
                 let msg := catch_message "Taxed send failed." err in
                 setError (Some msg) ;;
                 logAction env ("Taxed send failed: " ++ msg) JUndefined)
              (setLoading false)
      end
  | _, _ =>
      setError (Some "Connect a wallet before sending with tax.") ;;
      logAction env "Taxed send failed: no wallet connected" JUndefined ;;
      return_
  end.

End TaxedSendDual.

(* ------------------------------------------------------------------ *)
(** ** components/TaxedSendCard.tsx, third revision: the wallet adapter's
       [sendTransaction] signs and sends in one call *)

Module TaxedSendAdapter.

Definition isMainnet (env : Env) : bool :=
  match net_name (networkConfig env) with mainnet_beta => true | devnet => false end.
Definition modeLabel (env : Env) : string :=
  if isMainnet env then "MAINNET" else "devnet".

(** [data.signature || data.txSignature || data.transactionSignature] *)
Definition signature_of (data : jsval) : jsval :=
  js_or (js_or (prop data "signature") (prop data "txSignature"))
        (prop data "transactionSignature").

(** Helper: decode base64 to Uint8Array in browser *)
Definition decodeBase64ToBytes (env : Env) (b64 : string) : M (list Byte.byte) :=
  binary <- lift (atob env b64) ;;
  ret (char_codes binary).

Definition handleSubmit (env : Env) : M unit :=
  setError None ;;
  setLastSig None ;;
  match nonempty (backendBaseUrl env) with
  | None =>
      setError (Some "Backend URL is not configured.") ;;
      logAction env "Taxed send failed: backend URL not set" JUndefined ;;
      return_
  | Some base =>
      match nonempty (walletPublicKey env) with
      | None =>
          setError (Some "Connect a wallet before using the taxed send route.") ;;
          logAction env "Taxed send failed: no wallet connected" JUndefined ;;
          return_
      | Some pk =>
          to <- read toAddress ;;
          amt <- read amount ;;
          if (to =? "") || (amt =? "") then
            setError (Some "Enter a destination address and amount.") ;;
            return_
          else
            let parsedAmount := Number env amt in
            if negb (Number_isFinite parsedAmount) || num_le0 parsedAmount then
              setError (Some "Amount must be a positive number.") ;;
              return_
            else
              setLoading true ;;
              try_catch_finally
                ((* 1. Ask backend to prepare the taxed transfer *)
                 resp <- call (EvFetch (base ++ "/aksol/send-taxed-tx")
                                       (mkReq pk (Some to) parsedAmount
                                              (NetworkName_str (net_name (networkConfig env)))))
                              (fetch env (base ++ "/aksol/send-taxed-tx")
                                     (mkReq pk (Some to) parsedAmount
                                            (NetworkName_str (net_name (networkConfig env))))) ;;
                 if negb (resp_ok resp) then
                   throw (Error ("Backend HTTP " ++ string_of_Z (status resp)))
                 else
                   data <- lift (resp_json resp) ;;
                   (* CASE A: backend already broadcasted and returns a signature *)
                   _ <- get env data "signature" ;;
                   let sig0 := signature_of data in
                   sig <-
                     (if negb (truthy sig0) then
                        (* CASE B: backend returns a serialized transaction we must sign+send *)
                        let base64Tx := transaction_of data in
                        if negb (truthy base64Tx) then
                          throw (Error "Backend did not return a signature or transaction. Check server logs.")
                        else
                          rawTx <- decodeBase64ToBytes env (ToString env base64Tx) ;;
                          tx <- call (EvTransactionFrom rawTx) (Transaction_from env rawTx) ;;
                          _ <- lift (Connection_new env (rpcUrl (networkConfig env)) "confirmed") ;;
                          s <- call (EvSendTransaction tx (rpcUrl (networkConfig env)))
                                    (sendTransaction (wallet env) tx (rpcUrl (networkConfig env))) ;;
                          ret (JStr s)
                      else ret sig0) ;;
                   setLastSig (Some sig) ;;
                   logAction env ("Taxed send (" ++ modeLabel env ++ ")") sig)
                (fun err =>
                   let msg := catch_message "Taxed send failed." err in
                   setError (Some msg) ;;
                   logAction env ("Taxed send failed: " ++ msg) JUndefined)
                (setLoading false)
      end
  end.

End TaxedSendAdapter.

(* ------------------------------------------------------------------ *)
(** ** The four submit handlers, side by side *)

Inductive Card : Type :=
| Purchase          (* PurchaseCard *)
| TaxedBasic        (* TaxedSendCard, first revision *)
| TaxedDual         (* TaxedSendCard, second revision *)
| TaxedAdapter.     (* TaxedSendCard, third revision *)

Definition handleSubmit (c : Card) : Env -> M unit :=
  match c with
  | Purchase => PurchaseCard.handleSubmit
  | TaxedBasic => TaxedSendBasic.handleSubmit
  | TaxedDual => TaxedSendDual.handleSubmit
  | TaxedAdapter => TaxedSendAdapter.handleSubmit
  end.

Definition Outcome : Type := (option jsval * World * list Event)%type.

(** One submission of the form of card [c]. *)
Definition submit (c : Card) (env : Env) (w : World) : Outcome :=
  run_handler (handleSubmit c env) w.

Definition escaped (r : Outcome) : option jsval := fst (fst r).
Definition final (r : Outcome) : World := snd (fst r).
Definition trace (r : Outcome) : list Event := snd r.

(** Classes of events, and how often a trace holds one. *)
Definition is_log (e : Event) : bool :=
  match e with EvLogAction _ _ => true | _ => false end.
Definition is_fetch (e : Event) : bool :=
  match e with EvFetch _ _ => true | _ => false end.
Definition is_confirm (e : Event) : bool :=
  match e with EvConfirmTransaction _ _ => true | _ => false end.
Definition is_broadcast (e : Event) : bool :=
  match e with EvSendRawTransaction _ | EvSendTransaction _ _ => true | _ => false end.
(** The wallet is asked to sign by [signTransaction] and by the adapter's
    [sendTransaction]. *)
Definition is_sign (e : Event) : bool :=
  match e with EvSignTransaction _ | EvSendTransaction _ _ => true | _ => false end.

Definition count (p : Event -> bool) (t : list Event) : nat :=
  List.length (filter p t).

(** The backend's success body on the wire:
    [{ ok: true, signature?: string, transaction?: base64-string }]. *)
Definition opt_field (k : string) (v : option string) : list (string * jsval) :=
  match v with
  | Some s => [(k, JStr s)]
  | None => []
  end.

Definition success_body (sig tx : option string) : jsval :=
  JObj (("ok", JBool true) :: opt_field "signature" sig ++ opt_field "transaction" tx).

Definition Broadcasted (sig : string) : jsval := success_body (Some sig) None.
Definition Unsigned (envelope : string) : jsval := success_body None (Some envelope).

(** The backend answers every request with status [st] and JSON [data]. *)
Definition backend_replies (env : Env) (st : Z) (data : jsval) : Prop :=
  forall url req, fetch env url req = Ok (mkResp st (Ok data)).

(** The messages of the checks made before any request is sent. *)
Definition wallet_check_messages : list string :=
  [ "Connect a wallet before using the 0% route.";
    "Connect a wallet before sending with tax.";
    "Connect a wallet before using the taxed send route.";
    "Current wallet does not support transaction signing.";
    "Backend URL is not configured." ].

Definition field_check_messages : list string :=
  [ "Amount must be a positive number.";
    "Please enter a recipient address.";
    "AKSOL recipient address looks incomplete.";
    "Enter a destination address and amount." ].

Definition InvalidInput_messages : list string :=
  wallet_check_messages ++ field_check_messages.

(** What a card reports when the body holds nothing it can use. *)
Definition missing_payload_message (c : Card) : string :=
  match c with
  | Purchase | TaxedBasic => "Backend did not return a transaction."
  | TaxedDual =>
      "Backend did not return a signature or transaction. Check console logs for full response."
  | TaxedAdapter =>
      "Backend did not return a signature or transaction. Check server logs."
  end.

Definition failure_prefix (c : Card) : string :=
  match c with
  | Purchase => "0% purchase failed: "
  | _ => "Taxed send failed: "
  end.

Definition failure_default (c : Card) : string :=
  match c with
  | Purchase => "0% purchase failed."
  | _ => "Taxed send failed."
  end.

(** The revisions that accept a signature from the backend (CASE A). *)
Definition has_fast_path (c : Card) : bool :=
  match c with
  | TaxedDual | TaxedAdapter => true
  | Purchase | TaxedBasic => false
  end.

(** The names under which a card looks for a signature in the body, in
    the order of its chain of [||]. *)
Definition signature_fields (c : Card) : list string :=
  match c with
  | Purchase | TaxedBasic => []
  | TaxedDual => [ "signature"; "txSignature"; "transactionSignature"; "sig" ]
  | TaxedAdapter => [ "signature"; "txSignature"; "transactionSignature" ]
  end.

(** The names under which it looks for a serialized transaction. *)
Definition transaction_fields (c : Card) : list string :=
  match c with
  | Purchase | TaxedBasic => [ "transaction" ]
  | TaxedDual | TaxedAdapter => [ "transaction"; "tx"; "txBase64"; "serializedTx" ]
  end.

Definition fields_read (c : Card) : list string :=
  signature_fields c ++ transaction_fields c.

(** A body that carries nothing card [c] can use: every field it reads is
    absent, or holds a value that counts as absent ([null], the empty
    string, ...). *)
Definition no_payload_for (c : Card) (data : jsval) : Prop :=
  forall k, In k (fields_read c) -> truthy (prop data k) = false.

(** The signature a card reads from the body (CASE A). *)
Definition reported_signature (c : Card) (data : jsval) : jsval :=
  match c with
  | Purchase | TaxedBasic => JUndefined
  | TaxedDual => TaxedSendDual.signature_of data
  | TaxedAdapter => TaxedSendAdapter.signature_of data
  end.

(** What is left of that chain once [data.signature] is out of the way:
    the other names, in the same order. *)
Definition alias_signature (c : Card) (data : jsval) : jsval :=
  match c with
  | Purchase | TaxedBasic => JUndefined
  | TaxedDual =>
      js_or (js_or (prop data "txSignature") (prop data "transactionSignature"))
            (prop data "sig")
  | TaxedAdapter =>
      js_or (prop data "txSignature") (prop data "transactionSignature")
  end.

(** The serialized transaction a card reads from the body (CASE B). *)
Definition reported_transaction (c : Card) (data : jsval) : jsval :=
  match c with
  | Purchase | TaxedBasic => prop data "transaction"
  | TaxedDual | TaxedAdapter => transaction_of data
  end.

(** The bytes a card's decoder makes of it: [Buffer.from(_, "base64")], and
    [atob] with the character codes in the third revision. *)
Definition decoded_bytes (c : Card) (env : Env) (data : jsval)
  : result (list Byte.byte) :=
  match c with
  | TaxedAdapter =>
      match atob env (ToString env (reported_transaction c data)) with
      | Ok binary => Ok (char_codes binary)
      | Err e => Err e
      end
  | _ => Buffer_from_base64 env (reported_transaction c data)
  end.

(** The checks a card makes before it looks at the form: a connected wallet
    that can sign, or, in the third revision, a backend URL and a wallet
    address. *)
Definition wallet_ready (c : Card) (env : Env) : bool :=
  match c with
  | TaxedAdapter =>
      match nonempty (backendBaseUrl env), nonempty (walletPublicKey env) with
      | Some _, Some _ => true
      | _, _ => false
      end
  | _ =>
      match connected (wallet env), publicKey (wallet env),
            signTransaction (wallet env) with
      | true, Some _, Some _ => true
      | _, _, _ => false
      end
  end.

(** The amount in the form is not a positive finite number. *)
Definition amount_rejected (env : Env) (w : World) : bool :=
  negb (Number_isFinite (Number env (amount w))) || num_le0 (Number env (amount w)).

(** A check of the form fields turns the submission down. *)
Definition field_rejected (c : Card) (env : Env) (w : World) : bool :=
  match c with
  | Purchase => amount_rejected env w
  | TaxedBasic => (trim (toAddress w) =? "") || amount_rejected env w
  | TaxedDual =>
      amount_rejected env w || (toAddress w =? "")
      || (js_length (trim (toAddress w)) <? 8)%nat
  | TaxedAdapter =>
      (toAddress w =? "") || (amount w =? "") || amount_rejected env w
  end.

(** The submission gets as far as the form fields and stops there. *)
Definition stops_at_field_check (c : Card) (env : Env) (w : World) : bool :=
  wallet_ready c env && field_rejected c env w.

(** [env] with a backend that answers every request with status [st] and
    JSON [data]. *)
Definition with_backend (env : Env) (st : Z) (data : jsval) : Env := {|
  clock := clock env;
  Number := Number env;
  ToString_other := ToString_other env;
  TypeError := TypeError env;
  atob_error := atob_error env;
  Buffer_from_base64 := Buffer_from_base64 env;
  VersionedTransaction_deserialize := VersionedTransaction_deserialize env;
  Transaction_from := Transaction_from env;
  Transaction_serialize := Transaction_serialize env;
  Connection_new := Connection_new env;
  wallet := wallet env;
  connection := connection env;
  fetch := fun _ _ => Ok (mkResp st (Ok data));
  VITE_BACKEND_BASE_URL := VITE_BACKEND_BASE_URL env;
  VITE_SOLANA_CLUSTER := VITE_SOLANA_CLUSTER env;
  isMainnet := isMainnet env;
  networkConfig := networkConfig env;
  walletPublicKey := walletPublicKey env;
  backendBaseUrl := backendBaseUrl env
|}.

(* ------------------------------------------------------------------ *)
(** ** Test doubles *)

Module Demo.

Definition clk : Clock := {|
  Date_now := fun t => (1700000000000 + Z.of_nat t)%Z;
  Math_random_36 := fun _ => "0.k3j9x2mq1";
  Date_toISOString := fun _ => "2024-01-01T00:00:00.000Z"
|}.

(** [Number(text)] on the inputs used below; any other text stands for one that
    is not numeric. *)
Definition to_number (s : string) : jsnum :=
  if s =? "0.5" then JFinite 1 (-1)
  else if s =? "1" then JFinite 1 0
  else if s =? "0" then JFinite 0 0
  else if s =? "" then JFinite 0 0
  else if s =? "-1" then JFinite (-1) 0
  else JNaN.

(** A lenient [Buffer.from(text, "base64")]. *)
Definition buffer_from (v : jsval) : result (list Byte.byte) :=
  match v with
  | JStr s =>
      match forgiving_base64_decode s with
      | Some binary => Ok (char_codes binary)
      | None => Ok []
      end
  | _ => Err (Error "The first argument must be of type string.")
  end.

(** Parsers that tell the two formats apart by the first byte. *)
Definition parse_versioned (bytes : list Byte.byte)
  : result VersionedTransaction :=
  match bytes with
  | Byte.x80 :: _ => Ok (mkVtx bytes)
  | _ => Err (Error "Versioned messages must have the version prefix set.")
  end.

Definition parse_legacy (bytes : list Byte.byte) : result Transaction :=
  match bytes with
  | Byte.x01 :: _ => Ok (mkTx bytes (Some "BackendFeePayer"))
  | _ => Err (Error "Reached end of buffer unexpectedly")
  end.

Definition wal : Wallet := {|
  connected := true;
  publicKey := Some "Wallet1";
  signTransaction := Some (fun tx => Ok tx);
  sendTransaction := fun _ _ => Ok "SIG456"
|}.

(** A connection whose confirmation wait settles to [confirm]. *)
Definition conn (confirm : result jsval) : Connection := {|
  sendRawTransaction := fun _ => Ok "SIG456";
  confirmTransaction := fun _ _ => confirm
|}.

Definition devnet_config : AksolNetworkConfig := {|
  net_name := devnet;
  net_label := "Devnet (test)";
  rpcUrl := "https://api.devnet.solana.com"
|}.

(** An environment whose backend settles every request to [reply] and
    whose confirmation wait settles to [confirm]. *)
Definition env (reply : result Response) (confirm : result jsval) : Env := {|
  clock := clk;
  Number := to_number;
  ToString_other := fun _ => "[object Object]";
  TypeError := fun k => Error ("Cannot read properties of null (reading '" ++ k ++ "')");
  atob_error := Error "The string to be decoded is not correctly encoded.";
  Buffer_from_base64 := buffer_from;
  VersionedTransaction_deserialize := parse_versioned;
  Transaction_from := parse_legacy;
  Transaction_serialize := fun tx => Ok (tx_payload tx);
  Connection_new := fun _ _ => Ok tt;
  wallet := wal;
  connection := conn confirm;
  fetch := fun _ _ => reply;
  VITE_BACKEND_BASE_URL := None;
  VITE_SOLANA_CLUSTER := None;
  isMainnet := false;
  networkConfig := devnet_config;
  walletPublicKey := Some "Wallet1";
  backendBaseUrl := Some "http://localhost:8080"
|}.

Definition confirmed : result jsval := Ok (JObj [("value", JObj [("err", JNull)])]).

Definition timed_out : result jsval :=
  Err (Error "Transaction was not confirmed in 30.00 seconds.").

(** The backend answers 200 with [data]; confirmation succeeds. *)
Definition env_ok (data : jsval) : Env := env (Ok (mkResp 200 (Ok data))) confirmed.

(** A filled-in form: recipient and amount 0.5. *)
Definition form : World := mkWorld "Wallet2Address" "0.5" false None None App.init.

(** The same form with the amount 0. *)
Definition form_zero : World := mkWorld "Wallet2Address" "0" false None None App.init.

End Demo.

(* ------------------------------------------------------------------ *)
(** ** The order of the steps of a submission *)

(** The step of the submission a call belongs to: request, decode, sign,
    broadcast, confirm, log. The adapter's [sendTransaction] signs and
    broadcasts in one call. *)
Definition stage (e : Event) : nat :=
  match e with
  | EvFetch _ _ => 0
  | EvVersionedDeserialize _ => 1
  | EvTransactionFrom _ => 1
  | EvSignTransaction _ => 2
  | EvSendTransaction _ _ => 2
  | EvSendRawTransaction _ => 3
  | EvConfirmTransaction _ _ => 4
  | EvLogAction _ _ => 5
  end.

Fixpoint strictly_increasing (l : list nat) : bool :=
  match l with
  | [] => true
  | x :: rest =>
      match rest with
      | [] => true
      | y :: _ => (x <? y)%nat && strictly_increasing rest
      end
  end.

(** The wallet (or, in the third revision, the wallet address prop) a card
    needs before it does anything else. *)
Definition wallet_missing (c : Card) (env : Env) : bool :=
  match c with
  | TaxedAdapter =>
      match nonempty (walletPublicKey env) with Some _ => false | None => true end
  | _ =>
      match connected (wallet env), publicKey (wallet env) with
      | true, Some _ => false
      | _, _ => true
      end
  end.

(** The recipient a card puts into its request. *)
Definition request_recipient (c : Card) (w : World) : option string :=
  match c with
  | Purchase => None
  | TaxedBasic | TaxedDual => Some (trim (toAddress w))
  | TaxedAdapter => Some (toAddress w)
  end.

(** The address a card signs its request with. *)
Definition request_sender (c : Card) (env : Env) : option string :=
  match c with
  | TaxedAdapter => nonempty (walletPublicKey env)
  | _ => publicKey (wallet env)
  end.

(* ------------------------------------------------------------------ *)
(** ** src/config.ts and components/ActivityCard.tsx *)

Module config.

Definition DEFAULT_CLUSTER : string := "devnet".
Definition EXPLORER_BASE_URL : string := "https://explorer.solana.com".
Definition EXPLORER_CLUSTER_SUFFIX : string := "?cluster=devnet".

End config.

Module ActivityCard.

(** The link shown under a record:
<<
  a.signature ? `${EXPLORER_BASE_URL}/tx/${a.signature}${EXPLORER_CLUSTER_SUFFIX}` : null
>> *)
Definition explorerUrl (env : Env) (a : ActivityItem) : option string :=
  if truthy (signature a) then
    Some (config.EXPLORER_BASE_URL ++ "/tx/" ++ ToString env (signature a)
            ++ config.EXPLORER_CLUSTER_SUFFIX)%string
  else None.

End ActivityCard.

(* ------------------------------------------------------------------ *)
(** ** The same monad over any state and any kind of event *)

Section Eff.

Context {S E : Type}.

Definition Eff (A : Type) : Type := S -> completion A * S * list E.

Definition eret {A} (a : A) : Eff A := fun s => (Normal a, s, []).

Definition ebind {A B} (m : Eff A) (k : A -> Eff B) : Eff B :=
  fun s =>
    match m s with
    | (Normal a, s1, t1) =>
        match k a s1 with
        | (c, s2, t2) => (c, s2, t1 ++ t2)
        end
    | (Throw e, s1, t1) => (Throw e, s1, t1)
    | (Return, s1, t1) => (Return, s1, t1)
    end.

Definition ethrow {A} (e : jsval) : Eff A := fun s => (Throw e, s, []).
Definition ereturn {A} : Eff A := fun s => (Return, s, []).

(** A call that leaves the component: recorded, then settled. *)
Definition ecall {A} (ev : E) (r : result A) : Eff A :=
  fun s => (match r with Ok a => Normal a | Err e => Throw e end, s, [ev]).

(** An effect that cannot fail, such as [alert]. *)
Definition emit (ev : E) : Eff unit := fun s => (Normal tt, s, [ev]).

Definition elift {A} (r : result A) : Eff A :=
  fun s => (match r with Ok a => Normal a | Err e => Throw e end, s, []).

Definition eread {A} (f : S -> A) : Eff A := fun s => (Normal (f s), s, []).
Definition eupdate (f : S -> S) : Eff unit := fun s => (Normal tt, f s, []).

(** [try { body } catch (err) { handler err } finally { fin }] *)
Definition etry_catch_finally (body : Eff unit) (handler : jsval -> Eff unit)
  (fin : Eff unit) : Eff unit :=
  fun s =>
    let '(c1, s1, t1) :=
      match body s with
      | (Throw e, s', t') =>
          match handler e s' with
          | (c, s'', t'') => (c, s'', t' ++ t'')
          end
      | other => other
      end in
    match fin s1 with
    | (Normal _, s2, t2) => (c1, s2, t1 ++ t2)
    | (c2, s2, t2) => (c2, s2, t1 ++ t2)
    end.

Definition erun (m : Eff unit) (s : S) : option jsval * S * list E :=
  match m s with
  | (Throw e, s', t) => (Some e, s', t)
  | (_, s', t) => (None, s', t)
  end.

End Eff.

Arguments Eff : clear implicits.

Declare Scope eff_scope.
Delimit Scope eff_scope with eff.
Notation "x <- m ;; k" := (ebind m (fun x => k))
  (at level 61, m at next level, right associativity) : eff_scope.
Notation "m ;; k" := (ebind m (fun _ => k))
  (at level 61, right associativity) : eff_scope.

(** [n > 0] *)
Definition num_gt0 (n : jsnum) : bool :=
  match n with
  | JPosInf => true
  | JFinite m _ => (0 <? m)%Z
  | _ => false
  end.

(* ------------------------------------------------------------------ *)
(** ** components/StatusCard.tsx *)

Module StatusCard.

Record State : Type := mkState {
  loading : bool;
  data : jsval;                 (* [null] until a check stored a body *)
  error : option string;
  showDebug : bool;
  app : App.State
}.

Inductive Ev : Type :=
| Fetch (url : string) (cluster : string)
| LogAction (lbl : string).

Record Deps : Type := {
  clock : Clock;
  TypeError : string -> jsval;
  fetch : string -> string -> result Response;
  VITE_BACKEND_BASE_URL : option string;
  VITE_SOLANA_CLUSTER : option string
}.

Definition init : State := mkState false JNull None false App.init.

Definition setLoading (b : bool) : Eff State Ev unit :=
  eupdate (fun s => mkState b (data s) (error s) (showDebug s) (app s)).
Definition setData (j : jsval) : Eff State Ev unit :=
  eupdate (fun s => mkState (loading s) j (error s) (showDebug s) (app s)).
Definition setError (e : option string) : Eff State Ev unit :=
  eupdate (fun s => mkState (loading s) (data s) e (showDebug s) (app s)).

(** The [logAction] prop; this card passes a label only. *)
Definition logAction (d : Deps) (lbl : string) : Eff State Ev unit :=
  fun s => (Normal tt,
            mkState (loading s) (data s) (error s) (showDebug s)
                    (App.logAction (clock d) lbl JUndefined (app s)),
            [LogAction lbl]).

Definition backendBaseUrl (d : Deps) : string :=
  or_default (VITE_BACKEND_BASE_URL d) "http://localhost:8080".

Local Open Scope eff_scope.

Definition handleCheckStatus (d : Deps) : Eff State Ev unit :=
  setLoading true ;;
  setError None ;;
  etry_catch_finally
    (resp <- ecall (Fetch (backendBaseUrl d ++ "/aksol/status")
                          (or_default (VITE_SOLANA_CLUSTER d) "devnet"))
                   (fetch d (backendBaseUrl d ++ "/aksol/status")
                          (or_default (VITE_SOLANA_CLUSTER d) "devnet")) ;;
     if negb (resp_ok resp) then
       ethrow (Error ("Backend HTTP " ++ string_of_Z (status resp)))
     else
       json <- elift (resp_json resp) ;;
       setData json ;;
       if is_nullish json then ethrow (TypeError d "ok")
       else if truthy (prop json "ok") then
         logAction d "System status: backend online"
       else
         logAction d "System status: backend reported an error")
    (fun err =>
       let msg := catch_message "Failed to reach backend." err in
       setError (Some msg) ;;
       logAction d ("System status check failed: " ++ msg))
    (setLoading false).

(** [const isOk = data?.ok === true] *)
Definition isOk (s : State) : bool :=
  match prop (data s) "ok" with
  | JBool true => true
  | _ => false
  end.

Definition check (d : Deps) (s : State) : option jsval * State * list Ev :=
  erun (handleCheckStatus d) s.

End StatusCard.

(* ------------------------------------------------------------------ *)
(** ** components/StorefrontPurchaseCard.tsx *)

Module StorefrontPurchaseCard.

Record State : Type := mkState {
  open : bool;
  solAmount : string;
  recipient : string;
  note : string;
  submitting : bool;
  app : App.State
}.

(** The body of the storefront request, before [JSON.stringify]. *)
Record Body : Type := mkBody {
  fromPubkey : string;
  amountSol : jsnum;
  estimatedAksol : option jsnum;      (* [null] is [None] *)
  body_note : option string;
  cluster : string
}.

Inductive Ev : Type :=
| Alert (msg : string)
| Fetch (url : string) (body : Body)
| LogAction (lbl : string).

Record Deps : Type := {
  isMainnet : bool;
  publicMode : bool;
  clock : Clock;
  parseFloat : string -> jsnum;
  (* [x * EST_AKSOL_PER_SOL_HINT], the product of two doubles *)
  times_hint : jsnum -> jsnum;
  ToString_other : jsval -> string;
  TypeError : string -> jsval;
  fetch : string -> Body -> result Response;
  VITE_BACKEND_BASE_URL : option string
}.

Definition BACKEND_BASE_URL (d : Deps) : string :=
  or_default (VITE_BACKEND_BASE_URL d) "http://localhost:8080".

Definition alert (msg : string) : Eff State Ev unit := emit (Alert msg).

Definition logAction (d : Deps) (lbl : string) : Eff State Ev unit :=
  fun s => (Normal tt,
            mkState (open s) (solAmount s) (recipient s) (note s) (submitting s)
                    (App.logAction (clock d) lbl JUndefined (app s)),
            [LogAction lbl]).

Definition setSubmitting (b : bool) : Eff State Ev unit :=
  eupdate (fun s => mkState (open s) (solAmount s) (recipient s) (note s) b (app s)).
Definition setSolAmount (v : string) : Eff State Ev unit :=
  eupdate (fun s => mkState (open s) v (recipient s) (note s) (submitting s) (app s)).
Definition setRecipient (v : string) : Eff State Ev unit :=
  eupdate (fun s => mkState (open s) (solAmount s) v (note s) (submitting s) (app s)).
Definition setNote (v : string) : Eff State Ev unit :=
  eupdate (fun s => mkState (open s) (solAmount s) (recipient s) v (submitting s) (app s)).

Definition to_string (d : Deps) (v : jsval) : string :=
  match v with
  | JStr s => s
  | JUndefined => "undefined"
  | JNull => "null"
  | JBool true => "true"
  | JBool false => "false"
  | _ => ToString_other d v
  end.

Definition newline : string := String (ascii_of_nat 10) "".

Definition recorded_text : string :=
  "Storefront request recorded." ++ newline ++ newline
  ++ "Your order will be filled manually by the AKSOL team at fair market value.".

Local Open Scope eff_scope.

Definition handleSubmit (d : Deps) : Eff State Ev unit :=
  if negb (isMainnet d) then
    alert "Storefront purchases are only available on MAINNET." ;;
    ereturn
  else if negb (publicMode d) then
    alert "Switch to Public view to submit a storefront request." ;;
    ereturn
  else
    sol <- eread solAmount ;;
    rcp <- eread recipient ;;
    nt <- eread note ;;
    if (sol =? "") || (rcp =? "") then
      alert "Please enter a SOL amount and recipient wallet address." ;;
      ereturn
    else
      let parsedSol := parseFloat d sol in
      if negb (Number_isFinite parsedSol) || num_le0 parsedSol then
        alert "Please enter a valid positive SOL amount." ;;
        ereturn
      else
        setSubmitting true ;;
        etry_catch_finally
          ((* Fire the backend request so you get a reliable log *)
           let body :=
             mkBody rcp parsedSol
                    (if num_gt0 parsedSol then Some (times_hint d parsedSol) else None)
                    (nonempty (Some (trim nt)))
                    "mainnet-beta" in
           resp <- ecall (Fetch (BACKEND_BASE_URL d ++ "/aksol/storefront-purchase") body)
                         (fetch d (BACKEND_BASE_URL d ++ "/aksol/storefront-purchase") body) ;;
           (* resp.json().catch(() => ({})) *)
           let data := match resp_json resp with Ok j => j | Err _ => JObj [] end in
           notOk <- (if negb (resp_ok resp) then eret true
                     else if is_nullish data then ethrow (TypeError d "ok")
                     else eret (negb (truthy (prop data "ok")))) ;;
           if (notOk : bool) then
             let msg :=
               js_or (prop data "error")
                     (JStr ("Storefront request failed (status "
                            ++ string_of_Z (status resp)
                            ++ "). Please try again or contact support.")) in
             logAction d "Storefront request failed (mainnet)" ;;
             alert (to_string d msg) ;;
             ereturn
           else
             (* Frontend activity log *)
             logAction d ("Storefront request: " ++ sol ++ " SOL → AKSOL for "
                          ++ rcp ++ " (manual fulfillment)") ;;
             (* User-facing confirmation *)
             alert recorded_text ;;
             (* Reset form *)
             setSolAmount "" ;;
             setRecipient "" ;;
             setNote "")
          (fun err =>
             logAction d "Storefront request error (mainnet)" ;;
             alert "Unexpected error submitting storefront request. Please try again.")
          (setSubmitting false).

Definition submit (d : Deps) (s : State) : option jsval * State * list Ev :=
  erun (handleSubmit d) s.

Definition is_alert (e : Ev) : bool := match e with Alert _ => true | _ => false end.
Definition is_fetch (e : Ev) : bool := match e with Fetch _ _ => true | _ => false end.
Definition is_log (e : Ev) : bool := match e with LogAction _ => true | _ => false end.

End StorefrontPurchaseCard.

(* ------------------------------------------------------------------ *)
(** ** src/lib/api.ts *)

Module api.

(** A response as [postJson] reads it: the status, and what [res.text()]
    and [res.json()] settle to. *)
Record HttpResponse : Type := mkHttp {
  http_status : Z;
  http_text : result string;
  http_json : result jsval
}.

Definition http_ok (r : HttpResponse) : bool :=
  (200 <=? http_status r)%Z && (http_status r <=? 299)%Z.

Record Deps : Type := {
  VITE_BACKEND_BASE_URL : option string;
  DEV : bool;
  fetch : string -> jsval -> result HttpResponse
}.

(** [VITE_BACKEND_BASE_URL || (DEV ? "http://localhost:8080" : "")] *)
Definition BACKEND_BASE (d : Deps) : string :=
  or_default (VITE_BACKEND_BASE_URL d)
             (if DEV d then "http://localhost:8080" else "").

Definition buildUrl (d : Deps) (path : string) : result string :=
  if BACKEND_BASE d =? "" then
    Err (Error "BACKEND_BASE is not configured for this environment")
  else Ok (BACKEND_BASE d ++ path)%string.

(** What the returned promise settles to, and the requests made: the URL
    and the body of each. *)
Definition postJson (d : Deps) (path : string) (body : jsval)
  : result jsval * list (string * jsval) :=
  match buildUrl d path with
  | Err e => (Err e, [])
  | Ok url =>
      match fetch d url body with
      | Err e => (Err e, [(url, body)])
      | Ok res =>
          if negb (http_ok res) then
            match http_text res with
            | Err e => (Err e, [(url, body)])
            | Ok text =>
                (Err (Error ("Backend HTTP " ++ string_of_Z (http_status res)
                             ++ ": " ++ text)),
                 [(url, body)])
            end
          else (http_json res, [(url, body)])
      end
  end.

End api.

(* ------------------------------------------------------------------ *)
(** ** src/networkConfig.ts *)

Module networkConfig.

Record ImportMetaEnv : Type := {
  VITE_AKSOL_DEVNET_PROGRAM_ID : option string;
  VITE_AKSOL_DEVNET_MINT : option string;
  VITE_AKSOL_MAINNET_PROGRAM_ID : option string;
  VITE_AKSOL_MAINNET_MINT : option string;
  VITE_AKSOL_MAINNET_CONFIG : option string;
  VITE_SOLANA_DEVNET_RPC : option string;
  VITE_SOLANA_MAINNET_RPC : option string
}.

Record Config : Type := mkConfig {
  name : NetworkName;
  label : string;
  programId : option string;
  mint : option string;
  configPda : option string;
  rpc : string
}.

(** [x ?? dflt]: only an undefined variable takes the default. *)
Definition nullish_default (x : option string) (dflt : string) : string :=
  match x with
  | Some s => s
  | None => dflt
  end.

Definition DEVNET_CONFIG (e : ImportMetaEnv) : Config :=
  mkConfig devnet "Devnet (test)"
           (VITE_AKSOL_DEVNET_PROGRAM_ID e) (VITE_AKSOL_DEVNET_MINT e) None
           (nullish_default (VITE_SOLANA_DEVNET_RPC e) "https://api.devnet.solana.com").

Definition MAINNET_CONFIG (e : ImportMetaEnv) : Config :=
  mkConfig mainnet_beta "Mainnet (real money)"
           (VITE_AKSOL_MAINNET_PROGRAM_ID e) (VITE_AKSOL_MAINNET_MINT e)
           (VITE_AKSOL_MAINNET_CONFIG e)
           (nullish_default (VITE_SOLANA_MAINNET_RPC e)
                            "https://api.mainnet-beta.solana.com").

Definition NETWORKS (e : ImportMetaEnv) (n : NetworkName) : Config :=
  match n with
  | devnet => DEVNET_CONFIG e
  | mainnet_beta => MAINNET_CONFIG e
  end.

(** The part of a configuration the taxed send card reads. *)
Definition props (c : Config) : AksolNetworkConfig :=
  {| net_name := name c; net_label := label c; rpcUrl := rpc c |}.

End networkConfig.

(* ------------------------------------------------------------------ *)
(** ** components/WalletOverview.tsx: [formatAgo] *)

Module WalletOverview.

(** [now_ms] is [Date.now()] and the timestamp a block time in whole
    seconds; on integers of that size the double arithmetic of the source
    is exact, and [Math.floor(a / b)] is integer division. *)
Definition formatAgo (now_ms : Z) (timestampSec : option Z) : string :=
  match timestampSec with
  | None => "No recent activity"
  | Some ts =>
      if (ts =? 0)%Z then "No recent activity"
      else
        let tsMs := (ts * 1000)%Z in
        let diffMs := (now_ms - tsMs)%Z in
        if (diffMs <? 0)%Z then "Just now"
        else
          let diffMin := (diffMs / (60 * 1000))%Z in
          let diffHr := (diffMin / 60)%Z in
          let diffDay := (diffHr / 24)%Z in
          if (diffMin <? 1)%Z then "Just now"
          else if (diffMin <? 60)%Z then string_of_Z diffMin ++ " min ago"
          else if (diffHr <? 24)%Z then
            string_of_Z diffHr ++ " hr" ++ (if (diffHr =? 1)%Z then "" else "s") ++ " ago"
          else
            string_of_Z diffDay ++ " day" ++ (if (diffDay =? 1)%Z then "" else "s") ++ " ago"
  end.

End WalletOverview.

(* ------------------------------------------------------------------ *)
(** ** The abbreviated signature under a card *)




(* ------------------------------------------------------------------ *)
(** ** components/PriceTickerBar.tsx: one run of [fetchPrices] *)

Module PriceTickerBar.

Record PriceState : Type := mkPrices {
  solUsd : option jsnum;
  aksolUsd : option jsnum;
  aksolPerSol : option jsnum;
  updatedAt : option string
}.

Record State : Type := mkState {
  prices : PriceState;
  error : option string
}.

Inductive Ev : Type :=
| Fetch (url : string).

Record Deps : Type := {
  fetch : string -> result Response;
  to_number : jsval -> jsnum;          (* Number(x) *)
  reciprocal : jsnum -> jsnum;         (* 1 / x *)
  TypeError : string -> jsval;
  now_iso : string;                    (* new Date().toISOString() *)
  cancelled : bool                     (* the flag when the run looks at it *)
}.

Definition COINGECKO_SOL_URL : string :=
  "https://api.coingecko.com/api/v3/simple/price?ids=solana&vs_currencies=usd".

Definition AKSOL_DEXSCREENER_URL : string :=
  "https://api.dexscreener.com/latest/dex/tokens/2ENXnAQFQAhQ5kF49SSj9Jm4tPb2fShYs4DDuVdtwvSK".

Definition init : State := mkState (mkPrices None None None None) None.

Definition setError (e : option string) : Eff State Ev unit :=
  eupdate (fun s => mkState (prices s) e).
Definition setPrices (f : PriceState -> PriceState) : Eff State Ev unit :=
  eupdate (fun s => mkState (f (prices s)) (error s)).

(** [v.k], which throws on [null] and [undefined]. *)
Definition get (d : Deps) (v : jsval) (k : string) : Eff State Ev jsval :=
  if is_nullish v then ethrow (TypeError d k) else eret (prop v k).

(** [Array.isArray(v) ? v : ...]: the elements of an array. *)
Definition as_array (v : jsval) : option (list jsval) :=
  match v with
  | JArr xs => Some xs
  | _ => None
  end.

Definition is_SOL (v : jsval) : bool :=
  match v with
  | JStr s => s =? "SOL"
  | _ => false
  end.

(** [Array.isArray(aksolJson?.pairs) ? aksolJson.pairs
      : Array.isArray(aksolJson?.data?.pairs) ? aksolJson.data.pairs : []] *)
Definition pairs_of (aksolJson : jsval) : list jsval :=
  match as_array (prop aksolJson "pairs") with
  | Some xs => xs
  | None =>
      match as_array (prop (prop aksolJson "data") "pairs") with
      | Some xs => xs
      | None => []
      end
  end.

Local Open Scope eff_scope.

(** The SOL price from the first response. *)
Definition read_sol (d : Deps) (solResp : Response) : Eff State Ev (option jsnum) :=
  if resp_ok solResp then
    solJson <- elift (resp_json solResp) ;;
    (* solJson?.solana?.usd != null *)
    if negb (is_nullish (prop (prop solJson "solana") "usd")) then
      eret (Some (to_number d (prop (prop solJson "solana") "usd")))
    else eret None
  else eret None.

(** The AKSOL prices from the second response: in USD, and per SOL. *)
Definition read_aksol (d : Deps) (aksolResp : Response)
  : Eff State Ev (option jsnum * option jsnum) :=
  if resp_ok aksolResp then
    aksolJson <- elift (resp_json aksolResp) ;;
    match pairs_of aksolJson with
    | [] => eret (None, None)
    | mainPair :: _ =>
        priceUsd <- get d mainPair "priceUsd" ;;
        let aksolUsd :=
          if negb (is_nullish priceUsd) then Some (to_number d priceUsd) else None in
        let aksolPerSol :=
          if negb (is_nullish (prop mainPair "priceNative"))
             && (is_SOL (prop (prop mainPair "quoteToken") "symbol")
                 || is_SOL (prop (prop mainPair "baseToken") "symbol"))
          then
            let nativePrice := to_number d (prop mainPair "priceNative") in
            if num_gt0 nativePrice then Some (reciprocal d nativePrice) else None
          else None in
        eret (aksolUsd, aksolPerSol)
    end
  else eret (None, None).

Definition fetchPrices (d : Deps) : Eff State Ev unit :=
  etry_catch_finally
    (setError None ;;
     (* Promise.all starts both requests, then waits for both; which of two
        failures it reports does not matter, the catch block ignores it *)
     emit (Fetch COINGECKO_SOL_URL) ;;
     emit (Fetch AKSOL_DEXSCREENER_URL) ;;
     solResp <- elift (fetch d COINGECKO_SOL_URL) ;;
     aksolResp <- elift (fetch d AKSOL_DEXSCREENER_URL) ;;
     sol <- read_sol d solResp ;;
     ak <- read_aksol d aksolResp ;;
     if negb (cancelled d) then
       setPrices (fun _ => mkPrices sol (fst ak) (snd ak) (Some (now_iso d)))
     else eret tt)
    (fun err =>
       if negb (cancelled d) then
         setError (Some "Live pricing temporarily unavailable") ;;
         setPrices (fun prev =>
                      mkPrices (solUsd prev) (aksolUsd prev) (aksolPerSol prev)
                               (Some (now_iso d)))
       else eret tt)
    (eret tt).

Definition run (d : Deps) (s : State) : option jsval * State * list Ev :=
  erun (fetchPrices d) s.

End PriceTickerBar.

(* ------------------------------------------------------------------ *)
(** ** More test doubles *)

Module Doubles.

Definition no_wallet : Wallet := {|
  connected := false;
  publicKey := None;
  signTransaction := None;
  sendTransaction := fun _ _ => Err (Error "Wallet not connected")
|}.

(** The demo environment before a wallet is connected. *)
Definition env_no_wallet : Env := {|
  clock := Demo.clk;
  Number := Demo.to_number;
  ToString_other := fun _ => "[object Object]";
  TypeError := fun k => Error ("Cannot read properties of null (reading '" ++ k ++ "')");
  atob_error := Error "The string to be decoded is not correctly encoded.";
  Buffer_from_base64 := Demo.buffer_from;
  VersionedTransaction_deserialize := Demo.parse_versioned;
  Transaction_from := Demo.parse_legacy;
  Transaction_serialize := fun tx => Ok (tx_payload tx);
  Connection_new := fun _ _ => Ok tt;
  wallet := no_wallet;
  connection := Demo.conn Demo.confirmed;
  fetch := fun _ _ => Ok (mkResp 200 (Ok (Unsigned "AQID")));
  VITE_BACKEND_BASE_URL := None;
  VITE_SOLANA_CLUSTER := None;
  isMainnet := false;
  networkConfig := Demo.devnet_config;
  walletPublicKey := None;
  backendBaseUrl := Some "http://localhost:8080"
|}.

Definition no_env_vars : networkConfig.ImportMetaEnv := {|
  networkConfig.VITE_AKSOL_DEVNET_PROGRAM_ID := None;
  networkConfig.VITE_AKSOL_DEVNET_MINT := None;
  networkConfig.VITE_AKSOL_MAINNET_PROGRAM_ID := None;
  networkConfig.VITE_AKSOL_MAINNET_MINT := None;
  networkConfig.VITE_AKSOL_MAINNET_CONFIG := None;
  networkConfig.VITE_SOLANA_DEVNET_RPC := None;
  networkConfig.VITE_SOLANA_MAINNET_RPC := None
|}.

(** The demo environment on mainnet, answering with [data]. *)
Definition env_mainnet (data : jsval) : Env :=
  {| clock := Demo.clk;
     Number := Demo.to_number;
     ToString_other := fun _ => "[object Object]";
     TypeError := fun k => Error ("Cannot read properties of null (reading '" ++ k ++ "')");
     atob_error := Error "The string to be decoded is not correctly encoded.";
     Buffer_from_base64 := Demo.buffer_from;
     VersionedTransaction_deserialize := Demo.parse_versioned;
     Transaction_from := Demo.parse_legacy;
     Transaction_serialize := fun tx => Ok (tx_payload tx);
     Connection_new := fun _ _ => Ok tt;
     wallet := Demo.wal;
     connection := Demo.conn Demo.confirmed;
     fetch := fun _ _ => Ok (mkResp 200 (Ok data));
     VITE_BACKEND_BASE_URL := None;
     VITE_SOLANA_CLUSTER := None;
     isMainnet := true;
     networkConfig := networkConfig.props (networkConfig.NETWORKS no_env_vars mainnet_beta);
     walletPublicKey := Some "Wallet1";
     backendBaseUrl := Some "http://localhost:8080" |}.

(** A status backend that settles every request to [reply]. *)
Definition status_deps (reply : result Response) : StatusCard.Deps := {|
  StatusCard.clock := Demo.clk;
  StatusCard.TypeError :=
    fun k => Error ("Cannot read properties of null (reading '" ++ k ++ "')");
  StatusCard.fetch := fun _ _ => reply;
  StatusCard.VITE_BACKEND_BASE_URL := None;
  StatusCard.VITE_SOLANA_CLUSTER := None
|}.

(** The state after a check that found the backend online. *)
Definition status_online : StatusCard.State :=
  StatusCard.mkState false (JObj [("ok", JBool true)]) None false App.init.

(** [parseFloat] on the inputs used below. *)
Definition parse_float (s : string) : jsnum :=
  if s =? "0.5" then JFinite 1 (-1)
  else if s =? "0" then JFinite 0 0
  else JNaN.

(** A storefront on mainnet, in public view, whose backend settles every
    request to [reply]. *)
Definition store_deps (mainnet : bool) (reply : result Response)
  : StorefrontPurchaseCard.Deps := {|
  StorefrontPurchaseCard.isMainnet := mainnet;
  StorefrontPurchaseCard.publicMode := true;
  StorefrontPurchaseCard.clock := Demo.clk;
  StorefrontPurchaseCard.parseFloat := parse_float;
  StorefrontPurchaseCard.times_hint :=
    fun x => match x with JFinite m e => JFinite (m * 100000) e | other => other end;
  StorefrontPurchaseCard.ToString_other := fun _ => "[object Object]";
  StorefrontPurchaseCard.TypeError :=
    fun k => Error ("Cannot read properties of null (reading '" ++ k ++ "')");
  StorefrontPurchaseCard.fetch := fun _ _ => reply;
  StorefrontPurchaseCard.VITE_BACKEND_BASE_URL := None
|}.

Definition store_form : StorefrontPurchaseCard.State :=
  StorefrontPurchaseCard.mkState true "0.5" "Wallet1" "gift" false App.init.

(** A ticker whose two sources settle to [sol] and [aksol]. *)
Definition ticker_deps (sol aksol : result Response) (stop : bool)
  : PriceTickerBar.Deps := {|
  PriceTickerBar.fetch :=
    fun url => if url =? PriceTickerBar.COINGECKO_SOL_URL then sol else aksol;
  PriceTickerBar.to_number :=
    fun v => match v with JNum n => n | _ => JNaN end;
  PriceTickerBar.reciprocal := fun x => x;
  PriceTickerBar.TypeError :=
    fun k => Error ("Cannot read properties of null (reading '" ++ k ++ "')");
  PriceTickerBar.now_iso := "2024-01-01T00:00:30.000Z";
  PriceTickerBar.cancelled := stop
|}.

(** A ticker state that shows a SOL price. *)
Definition ticker_shown : PriceTickerBar.State :=
  PriceTickerBar.mkState
    (PriceTickerBar.mkPrices (Some (JFinite 150 0)) None None
                             (Some "2024-01-01T00:00:00.000Z"))
    None.

(** Text outside ASCII, in UTF-8: U+2003 (an em space); three times
    U+2026; seven digits and U+00E0; U+00A0, a line feed and U+FEFF. *)
Definition of_bytes (l : list nat) : string :=
  fold_right (fun b s => String (ascii_of_nat b) s) EmptyString l.

Definition em_space : string := of_bytes [226; 128; 131].

Definition three_ellipses : string :=
  of_bytes [226; 128; 166; 226; 128; 166; 226; 128; 166].

Definition a_grave_recipient : string :=
  of_bytes [49; 50; 51; 52; 53; 54; 55; 195; 160].

Definition nbsp_lf_bom : string := of_bytes [194; 160; 10; 239; 187; 191].

Definition api_deps (base : option string) (dev : bool) : api.Deps := {|
  api.VITE_BACKEND_BASE_URL := base;
  api.DEV := dev;
  api.fetch := fun _ _ => Ok (api.mkHttp 200 (Ok "{}") (Ok (JObj [])))
|}.

End Doubles.

(* ================================================================== *)
(** * Properties *)

(* ------------------------------------------------------------------ *)
(** ** The activity log *)

Section ActivityLog.

Variable clk : Clock.

Lemma run_snoc (ops : list App.Op) (op : App.Op) :
  App.run clk (ops ++ [op]) = App.step clk (App.run clk ops) op.
Proof. unfold App.run. now rewrite fold_left_app. Qed.

Lemma logged_snoc_toggle (ops : list App.Op) (t : nat) :
  App.logged clk t (ops ++ [App.OpToggle]) = App.logged clk t ops.
Proof.
  revert t. induction ops as [|[|lbl sig] ops IH]; intros t; simpl;
    now rewrite ?IH.
Qed.

Lemma logged_snoc_log (ops : list App.Op) (t : nat) (lbl : string) (sig : jsval) :
  App.logged clk t (ops ++ [App.OpLog lbl sig]) =
  App.logged clk t ops
    ++ [App.new_item clk (t + List.length (App.logged clk t ops)) lbl sig].
Proof.
  revert t. induction ops as [|[|l s] ops IH]; intros t; simpl.
  - now rewrite Nat.add_0_r.
  - apply IH.
  - rewrite IH. simpl. now rewrite Nat.add_succ_r.
Qed.

(** The tick counts the appends made so far. *)
Lemma tick_run (ops : list App.Op) :
  App.tick (App.run clk ops) = List.length (App.logged clk 0 ops).
Proof.
  induction ops as [|op ops IH] using rev_ind; [reflexivity|].
  rewrite run_snoc. destruct op as [|lbl sig]; simpl.
  - now rewrite logged_snoc_toggle.
  - rewrite logged_snoc_log, length_app, IH. simpl. lia.
Qed.

(** The log is the three newest records ever appended, newest first. *)
Lemma activities_run (ops : list App.Op) :
  App.activities (App.run clk ops) = firstn 3 (rev (App.logged clk 0 ops)).
Proof.
  induction ops as [|op ops IH] using rev_ind; [reflexivity|].
  rewrite run_snoc. destruct op as [|lbl sig].
  - simpl. now rewrite logged_snoc_toggle.
  - unfold App.step, App.logAction.
    cbn [App.activities]. rewrite logged_snoc_log, rev_app_distr, tick_run, IH.
    change (rev [App.new_item clk (0 + List.length (App.logged clk 0 ops)) lbl sig]
              ++ rev (App.logged clk 0 ops))
      with (App.new_item clk (List.length (App.logged clk 0 ops)) lbl sig
              :: rev (App.logged clk 0 ops)).
    rewrite !firstn_cons. f_equal.
    now rewrite firstn_firstn.
Qed.

End ActivityLog.

(** C8. The activity log never holds more than 3 records and is ordered
    newest-first: after any sequence of operations on the application state
    it is the (at most) three newest records ever appended, newest at the
    front. An append puts the new record at the front and keeps the two
    newest of the old ones, so that the oldest of three is dropped; a log
    that is not full loses nothing; and the only other operation there is,
    the view toggle, leaves the log as it was. *)
Theorem activity_log_bounded_newest_first (clk : Clock) (ops : list App.Op) :
  let st := App.run clk ops in
  List.length (App.activities st) <= 3
  /\ App.activities st = firstn 3 (rev (App.logged clk 0 ops))
  /\ (forall lbl sig,
        let item := App.new_item clk (App.tick st) lbl sig in
        App.activities (App.run clk (ops ++ [App.OpLog lbl sig]))
          = item :: firstn 2 (App.activities st)
        /\ (List.length (App.activities st) < 3 ->
            App.activities (App.run clk (ops ++ [App.OpLog lbl sig]))
              = item :: App.activities st)
        /\ (List.length (App.activities st) = 3 ->
            App.activities (App.run clk (ops ++ [App.OpLog lbl sig]))
              = item :: removelast (App.activities st)))
  /\ App.activities (App.run clk (ops ++ [App.OpToggle])) = App.activities st
  /\ App.activities App.init = [].
Proof.
  cbv zeta. repeat split.
  - rewrite activities_run. apply firstn_le_length.
  - apply activities_run.
  - now rewrite run_snoc.
  - intros Hlen. rewrite run_snoc. cbn. f_equal.
    destruct (App.activities (App.run clk ops)) as [|a [|b [|c l]]];
      cbn in *; try reflexivity; lia.
  - intros Hlen. rewrite run_snoc. cbn. f_equal.
    destruct (App.activities (App.run clk ops)) as [|a [|b [|c [|d l]]]];
      cbn in *; try reflexivity; lia.
  - now rewrite run_snoc.
Qed.

(* ------------------------------------------------------------------ *)
(** ** Symbolic execution of a handler *)

Arguments catch_message : simpl never.
Arguments trim : simpl never.
Arguments atob : simpl never.
Arguments string_of_Z : simpl never.
Arguments App.logAction : simpl never.
Arguments ToString : simpl never.
Arguments String.append : simpl never.
Arguments String.length : simpl never.
Arguments js_length : simpl never.
Arguments Nat.ltb : simpl never.
Arguments Number_isFinite : simpl never.
Arguments num_le0 : simpl never.
Arguments resp_ok : simpl never.
Arguments nonempty : simpl never.
Arguments TaxedSendDual.signature_of : simpl never.
Arguments TaxedSendAdapter.signature_of : simpl never.
Arguments transaction_of : simpl never.
Arguments js_or : simpl never.

Ltac unfold_handler_in H :=
  unfold submit, run_handler, handleSubmit,
    PurchaseCard.handleSubmit, TaxedSendBasic.handleSubmit,
    TaxedSendDual.handleSubmit, TaxedSendAdapter.handleSubmit,
    TaxedSendAdapter.decodeBase64ToBytes, sign_send_confirm, get,
    try_catch_finally, try_catch, bind, call, lift, throw, ret, return_,
    read, setError, setLastSig, setLoading, logAction in H.

(** Split on the innermost scrutinee that [H] is stuck on. *)
Ltac branch_in H :=
  match type of H with
  | context [match ?x with _ => _ end] =>
      lazymatch x with
      | context [match _ with _ => _ end] => fail
      | _ => destruct x eqn:?
      end
  end.

(** Run the handler in [H : r = submit c env w] down to its leaves, using
    [tac H] on every new case before the next split. *)
Ltac exec_in H tac := cbn in H; tac H; repeat (branch_in H; cbn in H; tac H).

Ltac no_hint H := idtac.

(** Name the outcome of the submission in the goal, run the handler, and
    put each final outcome back. *)
Ltac run_submit tac :=
  match goal with
  | |- context [submit ?c ?env ?w] =>
      let r := fresh "r" in
      let Hr := fresh "Hr" in
      remember (submit c env w) as r eqn:Hr;
      unfold_handler_in Hr; exec_in Hr tac; subst r;
      cbn [escaped final trace fst snd error lastSig app amount toAddress loading]
  end.

Ltac in_list := simpl; repeat (first [left; reflexivity | right]).

(* ------------------------------------------------------------------ *)
(** ** Input validation *)

(** C4. Whenever the amount typed into the form does not parse to a finite
    number, or parses to a number that is zero or negative, every submit
    handler ends in a failure whose message is one of the pre-request
    validation messages, records no signature, and makes no request to the
    backend: the only calls that leave the component are activity-log
    appends. *)
Theorem invalid_amount_fails_without_request (c : Card) (env : Env) (w : World) :
  Number_isFinite (Number env (amount w)) = false
  \/ num_le0 (Number env (amount w)) = true ->
  let r := submit c env w in
  (exists msg, error (final r) = Some msg /\ In msg InvalidInput_messages)
  /\ lastSig (final r) = None
  /\ count is_fetch (trace r) = 0
  /\ (forall e, In e (trace r) -> is_log e = true)
  /\ escaped r = None.
Proof.
  destruct w as [to amt ld er ls ap]. cbn [amount]. intros H. cbv zeta.
  destruct c;
    (destruct H as [H|H];
     run_submit ltac:(fun h => try rewrite H in h; rewrite ?orb_true_r in h; cbn in h);
     try congruence;
     repeat split;
     try (eexists; split; [reflexivity | in_list]);
     try (intros e Hin; simpl in Hin; intuition (subst; reflexivity))).
Qed.

Lemma invalid_amount_fails_without_request_witness :
  num_le0 (Number (Demo.env_ok (Unsigned "AQID")) (amount Demo.form_zero)) = true
  /\ count is_fetch (trace (submit Purchase (Demo.env_ok (Unsigned "AQID")) Demo.form_zero)) = 0.
Proof.
  split; [reflexivity|].
  apply (invalid_amount_fails_without_request
           Purchase (Demo.env_ok (Unsigned "AQID")) Demo.form_zero).
  right. reflexivity.
Defined.

(* ------------------------------------------------------------------ *)
(** ** The shape of the backend's answer *)

Lemma resp_ok_2xx (st : Z) (j : result jsval) :
  (200 <= st <= 299)%Z -> resp_ok (mkResp st j) = true.
Proof. unfold resp_ok. cbn [status]. lia. Qed.

Lemma no_payload_for_neither (c : Card) : no_payload_for c (success_body None None).
Proof. intros k Hk. destruct c; simpl in Hk; intuition (subst; reflexivity). Qed.

Ltac unfold_fields_in H :=
  unfold TaxedSendDual.signature_of, TaxedSendAdapter.signature_of,
    transaction_of, js_or in H.

(** C5. When the backend answers with the Broadcasted shape, a body that
    carries a signature and no transaction, no submit handler asks the
    wallet to sign: its trace holds no [signTransaction] and no
    [sendTransaction] call, whatever the form holds. *)
Theorem broadcasted_response_never_signs
  (c : Card) (env : Env) (w : World) (st : Z) (sig : string) :
  backend_replies env st (Broadcasted sig) ->
  count is_sign (trace (submit c env w)) = 0.
Proof.
  intros H. destruct w as [to amt ld er ls ap].
  destruct c;
    run_submit ltac:(fun h => try rewrite H in h; unfold_fields_in h; cbn in h);
    reflexivity.
Qed.

Lemma broadcasted_response_never_signs_witness :
  backend_replies (Demo.env_ok (Broadcasted "SIG123")) 200 (Broadcasted "SIG123")
  /\ count is_sign
       (trace (submit TaxedDual (Demo.env_ok (Broadcasted "SIG123")) Demo.form)) = 0.
Proof.
  split; [intros url req; reflexivity|].
  apply (broadcasted_response_never_signs
           TaxedDual (Demo.env_ok (Broadcasted "SIG123")) Demo.form 200 "SIG123").
  intros url req. reflexivity.
Defined.

(** The field facts a handler's tests consult, from [no_payload_for]. *)
Ltac payload_facts H :=
  let f k := (let F := fresh "Hf" in
              try assert (F := H k ltac:(in_list))) in
  f "signature"; f "txSignature"; f "transactionSignature"; f "sig";
  f "transaction"; f "tx"; f "txBase64"; f "serializedTx".

Ltac rewrite_facts_in h :=
  repeat match goal with
         | F : truthy (prop _ _) = false |- _ => rewrite F in h
         end.

Ltac rewrite_facts :=
  repeat match goal with
         | F : truthy (prop _ _) = false |- _ => rewrite F
         end.

(** A 2xx body that holds neither a [signature] nor a [transaction] field
    but a serialized transaction under the name [tx]: the second and the
    third revision of the taxed send read it, hand it to the wallet and end
    in success. *)
Lemma alias_transaction_is_signed :
  let data := JObj [("ok", JBool true); ("tx", JStr "AQID")] in
  prop data "signature" = JUndefined
  /\ prop data "transaction" = JUndefined
  /\ (let r := submit TaxedDual (Demo.env_ok data) Demo.form in
      error (final r) = None
      /\ lastSig (final r) = Some (JStr "SIG456")
      /\ count is_sign (trace r) = 1)
  /\ (let r := submit TaxedAdapter (Demo.env_ok data) Demo.form in
      error (final r) = None
      /\ lastSig (final r) = Some (JStr "SIG456")
      /\ count is_sign (trace r) = 1).
Proof. cbv zeta. repeat split. Qed.

(** C6, as the handlers have it. A 2xx answer in which no field that the
    card reads holds a usable value makes the submission fail: an error
    message is set, no signature is recorded, no exception escapes and the
    wallet is never asked to sign nor anything broadcast. The fields are
    [transaction] alone in the purchase card and in the first revision of
    the taxed send; [signature], [txSignature], [transactionSignature],
    [sig], [transaction], [tx], [txBase64] and [serializedTx] in the second
    revision; the same without [sig] in the third. Once the request was
    made, the failure is appended to the log without a signature and
    nothing else follows the request; and when the body is an object
    without an [error] text, the message is the card's own "backend did not
    return ..." text. *)
Theorem missing_payload_fails_without_signing
  (c : Card) (env : Env) (w : World) (st : Z) (data : jsval) :
  (200 <= st <= 299)%Z ->
  backend_replies env st data ->
  no_payload_for c data ->
  let r := submit c env w in
  (exists msg, error (final r) = Some msg)
  /\ lastSig (final r) = None
  /\ escaped r = None
  /\ count is_sign (trace r) = 0
  /\ count is_broadcast (trace r) = 0
  /\ (count is_fetch (trace r) = 1 ->
      exists url req msg,
        trace r = [EvFetch url req; EvLogAction (failure_prefix c ++ msg) JUndefined]
        /\ error (final r) = Some msg
        /\ (is_nullish data = false -> truthy (prop data "error") = false ->
            msg = missing_payload_message c)).
Proof.
  intros Hst H Hno.
  pose proof (resp_ok_2xx st (Ok data) Hst) as Hok.
  destruct w as [to amt ld er ls ap]. cbv zeta.
  destruct c; payload_facts Hno;
    run_submit ltac:(fun h => try rewrite H in h; try rewrite Hok in h;
                              unfold_fields_in h; rewrite_facts_in h;
                              rewrite ?orb_true_r in h; cbn in h);
    try congruence;
    (repeat split; try reflexivity; try discriminate; eauto;
     try (intros _; do 3 eexists; repeat split; try reflexivity;
          intros; try congruence;
          unfold js_or; rewrite_facts; reflexivity)).
Qed.

Lemma missing_payload_fails_without_signing_witness :
  (200 <= 200 <= 299)%Z
  /\ backend_replies (Demo.env_ok (success_body None None)) 200 (success_body None None)
  /\ no_payload_for Purchase (success_body None None)
  /\ count is_sign
       (trace (submit Purchase (Demo.env_ok (success_body None None)) Demo.form)) = 0.
Proof.
  split; [lia|]. split; [intros url req; reflexivity|].
  split; [exact (no_payload_for_neither Purchase)|].
  apply (missing_payload_fails_without_signing
           Purchase (Demo.env_ok (success_body None None)) Demo.form 200
           (success_body None None)).
  - lia.
  - intros url req. reflexivity.
  - exact (no_payload_for_neither Purchase).
Defined.

(* ------------------------------------------------------------------ *)
(** ** Terminal outcomes and log appends *)

(** A submission with the amount 0 sets the error and returns before
    [logAction] is reached: no record is appended. *)
Lemma zero_amount_appends_nothing :
  let r := submit Purchase (Demo.env_ok (Unsigned "AQID")) Demo.form_zero in
  error (final r) = Some "Amount must be a positive number."
  /\ trace r = []
  /\ App.activities (app (final r)) = []
  /\ count is_log (trace r) <> 1.
Proof. cbv zeta. repeat split. discriminate. Qed.

(** C2, as the handlers have it. Every submission ends, without an escaping
    exception, in exactly one of two outcomes: a recorded signature and no
    error, or an error message and no signature. It appends at most one
    record to the activity log: none when the wallet checks pass and a
    check of the form fields (amount, recipient) turns the submission
    down, in which case it called nothing at all and only set one of the
    field messages; exactly one in every other case. The record holds the
    recorded signature on success and none on failure. *)
Theorem one_outcome_at_most_one_append (c : Card) (env : Env) (w : World) :
  let r := submit c env w in
  escaped r = None
  /\ ((error (final r) = None /\ exists sig, lastSig (final r) = Some sig)
      \/ (lastSig (final r) = None /\ exists msg, error (final r) = Some msg))
  /\ (count is_log (trace r) = 1
      \/ (trace r = []
          /\ exists msg, error (final r) = Some msg /\ In msg field_check_messages))
  /\ (forall lbl sig, In (EvLogAction lbl sig) (trace r) ->
        (lastSig (final r) = Some sig /\ error (final r) = None)
        \/ (sig = JUndefined /\ lastSig (final r) = None))
  /\ (stops_at_field_check c env w = true -> trace r = [])
  /\ (stops_at_field_check c env w = false -> count is_log (trace r) = 1).
Proof.
  destruct w as [to amt ld er ls ap]. cbv zeta.
  unfold stops_at_field_check, wallet_ready, field_rejected, amount_rejected.
  cbn [amount toAddress].
  destruct c; run_submit no_hint;
    (split; [reflexivity|]);
    (split; [first [left; split; [reflexivity | eexists; reflexivity]
                   | right; split; [reflexivity | eexists; reflexivity]] |]);
    (split; [first [left; reflexivity
                   | right; split; [reflexivity
                                   | eexists; split; [reflexivity | in_list]]] |]);
    (split; [
    intros lbl sg Hin; simpl in Hin;
    repeat match goal with
           | Hd : _ \/ _ |- _ => destruct Hd as [Hd|Hd]
           | Hd : False |- _ => destruct Hd
           | Hd : _ = EvLogAction _ _ |- _ =>
               first [discriminate Hd | injection Hd as <- <-]
           end;
    first [left; split; reflexivity | right; split; reflexivity] |]);
    repeat first [ match goal with
                   | Hq : ?x = _ |- context [?x] => rewrite Hq
                   end
                 | progress cbn [andb orb] ];
    rewrite ?orb_true_r;
    (split; intros Hs; first [reflexivity | discriminate Hs]).
Qed.

(* ------------------------------------------------------------------ *)
(** ** The fast path *)

(** With the backend reporting the signature "SIG123", the second revision
    of the taxed send declares success at once: the trace ends with the log
    append and holds no confirmation wait. *)
Lemma broadcasted_success_without_confirmation :
  let r := submit TaxedDual (Demo.env_ok (Broadcasted "SIG123")) Demo.form in
  lastSig (final r) = Some (JStr "SIG123")
  /\ error (final r) = None
  /\ trace r =
       [ EvFetch "http://localhost:8080/aksol/send-taxed-tx"
                 (mkReq "Wallet1" (Some "Wallet2Address") (JFinite 1 (-1)) "devnet");
         EvLogAction "Taxed send (devnet)" (JStr "SIG123") ]
  /\ count is_confirm (trace r) = 0
  /\ ~ (exists sig cm, In (EvConfirmTransaction sig cm) (trace r)).
Proof.
  cbv zeta. repeat split.
  intros (sig & cm & Hin). simpl in Hin.
  destruct Hin as [Hin|[Hin|[]]]; discriminate Hin.
Qed.

(** C1, as the handlers have it. In the two revisions of the taxed send
    that accept a signature from the backend, a 2xx answer of the
    Broadcasted shape with a non-empty signature ends the submission right
    after the request: the signature is recorded as the last signature and
    passed to the one log append, no error is set, and nothing is signed,
    broadcast or awaited. *)
Theorem broadcasted_fast_path
  (c : Card) (env : Env) (w : World) (st : Z) (sig : string) :
  has_fast_path c = true ->
  sig <> "" ->
  (200 <= st <= 299)%Z ->
  backend_replies env st (Broadcasted sig) ->
  let r := submit c env w in
  count is_fetch (trace r) = 1 ->
  (exists url req lbl,
      trace r = [EvFetch url req; EvLogAction lbl (JStr sig)])
  /\ lastSig (final r) = Some (JStr sig)
  /\ error (final r) = None
  /\ escaped r = None
  /\ count is_sign (trace r) = 0
  /\ count is_broadcast (trace r) = 0
  /\ count is_confirm (trace r) = 0.
Proof.
  intros Hc Hsig Hst H.
  pose proof (resp_ok_2xx st (Ok (Broadcasted sig)) Hst) as Hok.
  assert (Hne : (sig =? "") = false) by now apply String.eqb_neq.
  destruct w as [to amt ld er ls ap]. cbv zeta.
  destruct c; try discriminate Hc;
    run_submit ltac:(fun h =>
      repeat first [ rewrite H in h | rewrite Hok in h | rewrite Hne in h
                   | progress unfold_fields_in h | progress cbn in h ]);
    intros Hf; try discriminate Hf;
    (repeat split; do 3 eexists; reflexivity).
Qed.

Lemma broadcasted_fast_path_witness :
  has_fast_path TaxedAdapter = true
  /\ "SIG123" <> ""
  /\ (200 <= 200 <= 299)%Z
  /\ backend_replies (Demo.env_ok (Broadcasted "SIG123")) 200 (Broadcasted "SIG123")
  /\ count is_fetch
       (trace (submit TaxedAdapter (Demo.env_ok (Broadcasted "SIG123")) Demo.form)) = 1
  /\ count is_confirm
       (trace (submit TaxedAdapter (Demo.env_ok (Broadcasted "SIG123")) Demo.form)) = 0.
Proof.
  split; [reflexivity|]. split; [discriminate|]. split; [lia|].
  split; [intros url req; reflexivity|]. split; [reflexivity|].
  apply (broadcasted_fast_path
           TaxedAdapter (Demo.env_ok (Broadcasted "SIG123")) Demo.form 200 "SIG123").
  - reflexivity.
  - discriminate.
  - lia.
  - intros url req. reflexivity.
  - reflexivity.
Defined.

(* ------------------------------------------------------------------ *)
(** ** The confirmation wait *)

(** The wallet signed, the network assigned "SIG456", and the confirmation
    wait gave up: the purchase card reports the thrown message, keeps no
    signature in its state and logs a record without one. *)
Lemma confirmation_failure_drops_signature :
  let env := Demo.env (Ok (mkResp 200 (Ok (Unsigned "AQID")))) Demo.timed_out in
  let r := submit Purchase env Demo.form in
  sendRawTransaction (connection env) [Byte.x01; Byte.x02; Byte.x03] = Ok "SIG456"
  /\ In (EvSendRawTransaction [Byte.x01; Byte.x02; Byte.x03]) (trace r)
  /\ In (EvConfirmTransaction "SIG456" "confirmed") (trace r)
  /\ error (final r) = Some "Transaction was not confirmed in 30.00 seconds."
  /\ lastSig (final r) = None
  /\ map signature (App.activities (app (final r))) = [JUndefined]
  /\ ~ (exists lbl, In (EvLogAction lbl (JStr "SIG456")) (trace r)).
Proof.
  cbv zeta. repeat split.
  - right. right. right. left. reflexivity.
  - do 4 right. left. reflexivity.
  - intros (lbl & Hin). simpl in Hin.
    repeat (destruct Hin as [Hin|Hin]; [discriminate Hin|]). destruct Hin.
Qed.

Ltac split_in Hin :=
  simpl in Hin;
  repeat match goal with
         | Hd : _ \/ _ |- _ => destruct Hd as [Hd|Hd]
         | Hd : False |- _ => destruct Hd
         end.

(** C3, as the handlers have it. When the confirmation wait of a
    submission fails with the thrown value [e], the outcome is the same
    plain failure as for any other exception: the error is the message
    taken from [e], no signature is recorded although the network had
    assigned one, no exception escapes, and the trace ends with the failed
    wait followed by one log append that carries no signature. *)
Theorem confirmation_failure_is_plain_failure
  (c : Card) (env : Env) (w : World) (sig cm : string) (e : jsval) :
  let r := submit c env w in
  In (EvConfirmTransaction sig cm) (trace r) ->
  confirmTransaction (connection env) sig cm = Err e ->
  let msg := catch_message (failure_default c) e in
  error (final r) = Some msg
  /\ lastSig (final r) = None
  /\ escaped r = None
  /\ (exists raw, In (EvSendRawTransaction raw) (trace r)
                  /\ sendRawTransaction (connection env) raw = Ok sig)
  /\ (exists pre,
        trace r = pre ++ [ EvConfirmTransaction sig cm;
                           EvLogAction (failure_prefix c ++ msg) JUndefined ]).
Proof.
  destruct w as [to amt ld er ls ap]. cbv zeta.
  destruct c; run_submit no_hint; intros Hin He; split_in Hin;
    try discriminate Hin; injection Hin as <- <-; try congruence;
    (rewrite He in *;
     match goal with Hd : Err _ = Err _ |- _ => injection Hd as <- end;
     repeat split;
     [ eexists; split; [do 3 right; left; reflexivity | eassumption]
     | eexists [_; _; _; _]; reflexivity ]).
Qed.

Lemma confirmation_failure_is_plain_failure_witness :
  let env := Demo.env (Ok (mkResp 200 (Ok (Unsigned "AQID")))) Demo.timed_out in
  In (EvConfirmTransaction "SIG456" "confirmed") (trace (submit Purchase env Demo.form))
  /\ confirmTransaction (connection env) "SIG456" "confirmed" = Demo.timed_out
  /\ lastSig (final (submit Purchase env Demo.form)) = None.
Proof.
  cbv zeta. split; [do 4 right; left; reflexivity|]. split; [reflexivity|].
  apply (confirmation_failure_is_plain_failure
           Purchase (Demo.env (Ok (mkResp 200 (Ok (Unsigned "AQID")))) Demo.timed_out)
           Demo.form "SIG456" "confirmed"
           (Error "Transaction was not confirmed in 30.00 seconds.")).
  - do 4 right. left. reflexivity.
  - reflexivity.
Defined.

(* ------------------------------------------------------------------ *)
(** ** The fee payer *)

(** The third revision hands the decoded transaction to the wallet as the
    parser returned it: here with the backend's fee payer, not the
    connected wallet's address. *)
Lemma adapter_sends_decoded_transaction_unchanged :
  let env := Demo.env_ok (Unsigned "AQID") in
  let r := submit TaxedAdapter env Demo.form in
  walletPublicKey env = Some "Wallet1"
  /\ publicKey (wallet env) = Some "Wallet1"
  /\ In (EvSendTransaction (mkTx [Byte.x01; Byte.x02; Byte.x03] (Some "BackendFeePayer"))
                           "https://api.devnet.solana.com") (trace r)
  /\ lastSig (final r) = Some (JStr "SIG456")
  /\ ~ (exists tx rpc, In (EvSendTransaction tx rpc) (trace r)
                       /\ feePayer tx = Some "Wallet1").
Proof.
  cbv zeta. repeat split.
  - right. right. left. reflexivity.
  - intros (tx & rpc & Hin & Hfee). split_in Hin; try discriminate Hin.
    injection Hin as <- <-. discriminate Hfee.
Qed.

(** C9, as the handlers have it. Whenever a submit handler calls the
    wallet's [signTransaction], the transaction it passes is the one just
    decoded from the backend's envelope with its fee payer overwritten by
    the connected wallet's public key, and the decoding is the call right
    before the signing. (The purchase card and the first two revisions of
    the taxed send sign this way.) *)
Theorem fee_payer_set_before_signing
  (c : Card) (env : Env) (w : World) (tx : Transaction) :
  let r := submit c env w in
  In (EvSignTransaction tx) (trace r) ->
  exists pk bytes tx0 pre post,
    publicKey (wallet env) = Some pk
    /\ Transaction_from env bytes = Ok tx0
    /\ tx = set_feePayer tx0 pk
    /\ feePayer tx = Some pk
    /\ trace r = pre ++ EvTransactionFrom bytes :: EvSignTransaction tx :: post.
Proof.
  destruct w as [to amt ld er ls ap]. cbv zeta.
  destruct c; run_submit no_hint; intros Hin; split_in Hin;
    try discriminate Hin; injection Hin as <-;
    (do 3 eexists; eexists [_]; eexists;
     repeat split; try eassumption; reflexivity).
Qed.

Lemma fee_payer_set_before_signing_witness :
  let env := Demo.env_ok (Unsigned "AQID") in
  In (EvSignTransaction (mkTx [Byte.x01; Byte.x02; Byte.x03] (Some "Wallet1")))
     (trace (submit Purchase env Demo.form))
  /\ exists pk bytes tx0 pre post,
       publicKey (wallet env) = Some pk
       /\ Transaction_from env bytes = Ok tx0
       /\ mkTx [Byte.x01; Byte.x02; Byte.x03] (Some "Wallet1") = set_feePayer tx0 pk
       /\ feePayer (mkTx [Byte.x01; Byte.x02; Byte.x03] (Some "Wallet1")) = Some pk
       /\ trace (submit Purchase env Demo.form)
          = pre ++ EvTransactionFrom bytes
                :: EvSignTransaction (mkTx [Byte.x01; Byte.x02; Byte.x03] (Some "Wallet1"))
                :: post.
Proof.
  cbv zeta. split; [right; right; left; reflexivity|].
  apply (fee_payer_set_before_signing
           Purchase (Demo.env_ok (Unsigned "AQID")) Demo.form
           (mkTx [Byte.x01; Byte.x02; Byte.x03] (Some "Wallet1"))).
  right. right. left. reflexivity.
Defined.

(* ------------------------------------------------------------------ *)
(** ** Truthiness of the signature field *)

(** Built-ins do not depend on the backend. *)
Ltac forget_backend_in H :=
  repeat match type of H with
         | context [atob (with_backend ?e ?s ?d)] =>
             change (atob (with_backend e s d)) with (atob e) in H
         | context [ToString (with_backend ?e ?s ?d)] =>
             change (ToString (with_backend e s d)) with (ToString e) in H
         end.

Ltac exec2_in H1 H2 :=
  cbn in H1; cbn in H2; forget_backend_in H1; forget_backend_in H2;
  repeat (branch_in H1; cbn in H1; cbn in H2;
          unfold_fields_in H1; unfold_fields_in H2; cbn in H1; cbn in H2).

(** A body whose [signature] is the empty string is handled exactly as the
    same body without a [signature] field. *)
Lemma empty_signature_as_absent
  (c : Card) (env : Env) (w : World) (st : Z) (tx : option string) :
  submit c (with_backend env st (success_body (Some "") tx)) w
  = submit c (with_backend env st (success_body None tx)) w.
Proof.
  destruct w as [to amt ld er ls ap]. destruct tx as [envelope|].
  all: remember (submit c (with_backend env st (success_body (Some "") _)) _) as r1 eqn:H1.
  all: remember (submit c (with_backend env st (success_body None _)) _) as r2 eqn:H2.
  all: destruct c; unfold_handler_in H1; unfold_handler_in H2;
    unfold resp_ok in H1, H2; exec2_in H1 H2; subst r1 r2; reflexivity.
Qed.

(** A 2xx body whose [signature] is the empty string and that reports a
    signature under the name [txSignature]: both revisions with a fast path
    take it, record that signature and never look at the transaction. *)
Lemma empty_signature_alias_takes_fast_path :
  let data := JObj [("ok", JBool true); ("signature", JStr "");
                    ("txSignature", JStr "SIGY"); ("transaction", JStr "AQID")] in
  prop data "signature" = JStr ""
  /\ (let r := submit TaxedDual (Demo.env_ok data) Demo.form in
      lastSig (final r) = Some (JStr "SIGY")
      /\ error (final r) = None
      /\ trace r = [ EvFetch "http://localhost:8080/aksol/send-taxed-tx"
                             (mkReq "Wallet1" (Some "Wallet2Address") (JFinite 1 (-1)) "devnet");
                     EvLogAction "Taxed send (devnet)" (JStr "SIGY") ])
  /\ (let r := submit TaxedAdapter (Demo.env_ok data) Demo.form in
      lastSig (final r) = Some (JStr "SIGY")
      /\ error (final r) = None
      /\ count is_sign (trace r) = 0).
Proof. cbv zeta. repeat split. Qed.

(** With [signature] empty, the chain of [||] goes on with the other
    names. *)
Lemma reported_signature_skips_empty (c : Card) (data : jsval) :
  prop data "signature" = JStr "" ->
  reported_signature c data = alias_signature c data.
Proof.
  intros H. destruct c; try reflexivity;
    unfold reported_signature, alias_signature, TaxedSendDual.signature_of,
      TaxedSendAdapter.signature_of; rewrite H; reflexivity.
Qed.

(** A 2xx body whose [signature] is the empty string and that holds a
    transaction, in the second revision: the transaction is decoded, signed,
    sent and confirmed, and the signature of the broadcast is recorded. *)
Lemma empty_signature_then_transaction_is_signed :
  let data := JObj [("ok", JBool true); ("signature", JStr "");
                    ("transaction", JStr "AQID")] in
  let r := submit TaxedDual (Demo.env_ok data) Demo.form in
  lastSig (final r) = Some (JStr "SIG456")
  /\ count is_sign (trace r) = 1
  /\ In (EvTransactionFrom [Byte.x01; Byte.x02; Byte.x03]) (trace r).
Proof. cbv zeta. repeat split. right. left. reflexivity. Qed.

(** C10, as the handlers have it. The handlers test the signature for
    truthiness, not for presence. When the [signature] of a 2xx body is the
    empty string, a revision with a fast path skips it and goes on with the
    other names it reads a signature from ([txSignature],
    [transactionSignature], and [sig] in the second revision). If one of
    them holds a truthy value, that value is recorded on the fast path: the
    request and the log append are the only calls. If none does, the handler
    falls through to the transaction fields: with no truthy transaction the
    submission fails with one failure record and the card's "backend did
    not return ..." message; with one, the card's decoder is applied to it,
    a decoding error ends the submission with nothing signed, and decoded
    bytes are handed to [Transaction.from] right after the request and the
    parsed transaction to the wallet ([signTransaction] with the wallet as
    fee payer in the second revision, the adapter's [sendTransaction] in
    the third). A signature that ends up recorded is either that truthy
    alias or the outcome of a signing call: never the empty string of the
    body. *)
Theorem empty_signature_falls_through
  (c : Card) (env : Env) (w : World) (st : Z) (data : jsval) :
  has_fast_path c = true ->
  (200 <= st <= 299)%Z ->
  backend_replies env st data ->
  prop data "signature" = JStr "" ->
  let r := submit c env w in
  count is_fetch (trace r) = 1 ->
  reported_signature c data = alias_signature c data
  /\ (truthy (alias_signature c data) = true ->
      (exists url req lbl,
          trace r = [EvFetch url req; EvLogAction lbl (alias_signature c data)])
      /\ lastSig (final r) = Some (alias_signature c data)
      /\ error (final r) = None)
  /\ (truthy (alias_signature c data) = false ->
      (truthy (transaction_of data) = false ->
       (exists url req,
           trace r = [ EvFetch url req;
                       EvLogAction (failure_prefix c ++ missing_payload_message c)
                                   JUndefined ])
       /\ error (final r) = Some (missing_payload_message c)
       /\ lastSig (final r) = None)
      /\ (truthy (transaction_of data) = true ->
          (forall e, decoded_bytes c env data = Err e ->
             count is_sign (trace r) = 0 /\ lastSig (final r) = None)
          /\ (forall bytes, decoded_bytes c env data = Ok bytes ->
              exists url req rest,
                trace r = EvFetch url req :: EvTransactionFrom bytes :: rest
                /\ forall tx0, Transaction_from env bytes = Ok tx0 ->
                     (c = TaxedDual ->
                      exists pk rest',
                        publicKey (wallet env) = Some pk
                        /\ rest = EvSignTransaction (set_feePayer tx0 pk) :: rest')
                     /\ (c = TaxedAdapter ->
                         forall u,
                           Connection_new env (rpcUrl (networkConfig env)) "confirmed" = Ok u ->
                           exists rest',
                             rest = EvSendTransaction tx0 (rpcUrl (networkConfig env)) :: rest'))))
  /\ (forall v, lastSig (final r) = Some v ->
        (v = alias_signature c data /\ truthy v = true)
        \/ count is_sign (trace r) = 1).
Proof.
  intros Hc Hst H Hs.
  pose proof (resp_ok_2xx st (Ok data) Hst) as Hok.
  pose proof (reported_signature_skips_empty c data Hs) as Hrs.
  assert (Hnn : is_nullish data = false)
    by (destruct data; try discriminate Hs; reflexivity).
  destruct w as [to amt ld er ls ap]. cbv zeta.
  intros Hf. split; [exact Hrs|]. revert Hf.
  unfold reported_signature in Hrs. unfold decoded_bytes, reported_transaction.
  remember (alias_signature c data) as a eqn:Ha. clear Ha.
  destruct c; try discriminate Hc; clear Hc;
    run_submit ltac:(fun h => repeat first [ rewrite H in h | rewrite Hok in h
                                           | rewrite Hrs in h | rewrite Hnn in h
                                           | progress cbn in h ]);
    intros Hf; try discriminate Hf; clear Hf.
  all: repeat match goal with
           | Hb : negb _ = true |- _ => apply negb_true_iff in Hb
           | Hb : negb _ = false |- _ => apply negb_false_iff in Hb
           end.
  all: (split; [|split]).
  all: try solve [ intros Ht; first
         [ congruence
         | repeat split; first [reflexivity | do 3 eexists; reflexivity] ] ].
  all: try solve [ intros v Hv; first
         [ discriminate Hv
         | injection Hv as <-;
           first [left; split; [reflexivity | assumption] | right; reflexivity] ] ].
  all: intros Ht; split; intros Htx.
  all: try congruence.
  all: try solve [ repeat split; first [reflexivity | do 2 eexists; reflexivity] ].
  all: split; [ intros e1 He; first [congruence | split; reflexivity] |].
  all: intros bytes Hb; try congruence.
  all: match goal with
       | Hq : ?x = _, Hb : context [?x] |- _ => rewrite Hq in Hb
       end; cbn in Hb; try discriminate Hb; injection Hb as <-.
  all: do 3 eexists; (split; [reflexivity|]).
  all: intros tx0 Htx0; try congruence.
  all: match goal with
       | Hq : ?x = Ok _, Hb : ?x = Ok _ |- _ => rewrite Hq in Hb; injection Hb as <-
       end.
  all: split; intros Hc; try discriminate Hc.
  all: try solve [ do 2 eexists; split; [first [eassumption | reflexivity] | reflexivity] ].
  all: intros u Hu; try congruence; eexists; reflexivity.
Qed.

Lemma empty_signature_falls_through_witness :
  let data := JObj [("ok", JBool true); ("signature", JStr "");
                    ("transaction", JStr "AQID")] in
  let r := submit TaxedDual (Demo.env_ok data) Demo.form in
  has_fast_path TaxedDual = true
  /\ (200 <= 200 <= 299)%Z
  /\ backend_replies (Demo.env_ok data) 200 data
  /\ prop data "signature" = JStr ""
  /\ count is_fetch (trace r) = 1
  /\ reported_signature TaxedDual data = alias_signature TaxedDual data.
Proof.
  cbv zeta. split; [reflexivity|]. split; [lia|].
  split; [intros url req; reflexivity|]. split; [reflexivity|].
  split; [reflexivity|].
  apply (empty_signature_falls_through
           TaxedDual
           (Demo.env_ok (JObj [("ok", JBool true); ("signature", JStr "");
                               ("transaction", JStr "AQID")]))
           Demo.form 200
           (JObj [("ok", JBool true); ("signature", JStr "");
                  ("transaction", JStr "AQID")]));
    [reflexivity | lia | intros url req; reflexivity | reflexivity | reflexivity].
Defined.

(* ------------------------------------------------------------------ *)
(** ** The envelope decoder *)

(** A string that is not base64 makes [decodeTransaction] throw what
    [atob] throws, before either parser is tried. *)
Lemma decodeTransaction_bad_base64 (env : Env) (base64 : string) (w : World) :
  forgiving_base64_decode base64 = None ->
  solanaTx.decodeTransaction env base64 w = (Throw (atob_error env), w, []).
Proof.
  intros H. unfold solanaTx.decodeTransaction, solanaTx.base64ToUint8Array,
    try_catch, bind, lift, atob.
  now rewrite H.
Qed.

(** C7. [decodeTransaction] first decodes the base64 text to bytes. On
    those bytes it calls the versioned parser first; if that parser
    succeeds its transaction is the result and the legacy parser is never
    called; if it fails, for whatever reason, the legacy parser is called
    on the same bytes and decides the result. So the decoding of the bytes
    fails exactly when both parsers fail, and then with the legacy parser's
    error. The React state is left alone. *)
Theorem decodeTransaction_versioned_first
  (env : Env) (base64 binary : string) (w : World) :
  atob env base64 = Ok binary ->
  let bytes := char_codes binary in
  let '(res, w', t) := solanaTx.decodeTransaction env base64 w in
  w' = w
  /\ (exists rest, t = EvVersionedDeserialize bytes :: rest)
  /\ (forall vtx,
        VersionedTransaction_deserialize env bytes = Ok vtx ->
        res = Normal (Versioned vtx) /\ t = [EvVersionedDeserialize bytes])
  /\ (forall e,
        VersionedTransaction_deserialize env bytes = Err e ->
        t = [EvVersionedDeserialize bytes; EvTransactionFrom bytes]
        /\ res = match Transaction_from env bytes with
                 | Ok tx => Normal (Legacy tx)
                 | Err e' => Throw e'
                 end)
  /\ ((exists e, res = Throw e) <->
      (exists e1 e2,
          VersionedTransaction_deserialize env bytes = Err e1
          /\ Transaction_from env bytes = Err e2)).
Proof.
  intros Hb. cbv zeta.
  unfold solanaTx.decodeTransaction, solanaTx.base64ToUint8Array,
    try_catch, bind, call, lift, ret.
  rewrite Hb.
  destruct (VersionedTransaction_deserialize env (char_codes binary)) as [vtx|e1] eqn:Hv;
    [| destruct (Transaction_from env (char_codes binary)) as [tx|e2] eqn:Hl ];
    cbn.
  - (* the versioned parser succeeds *)
    split; [reflexivity|]. split; [now exists []|].
    split; [intros v Heq; injection Heq as <-; now split|].
    split; [intros e Heq; discriminate Heq|].
    split.
    + intros (e & Heq). discriminate Heq.
    + intros (e1 & e2 & Heq & _). discriminate Heq.
  - (* only the legacy parser succeeds *)
    split; [reflexivity|]. split; [now eexists|].
    split; [intros v Heq; discriminate Heq|].
    split; [intros e _; now split|].
    split.
    + intros (e & Heq). discriminate Heq.
    + intros (e1' & e2 & _ & Heq). discriminate Heq.
  - (* both fail *)
    split; [reflexivity|]. split; [now eexists|].
    split; [intros v Heq; discriminate Heq|].
    split; [intros e _; now split|].
    split.
    + intros _. now exists e1, e2.
    + intros _. now exists e2.
Qed.

Lemma decodeTransaction_versioned_first_witness :
  let env := Demo.env_ok JNull in
  atob env "AQID" = Ok (String "001" (String "002" (String "003" "")))
  /\ solanaTx.decodeTransaction env "AQID" Demo.form
     = (Normal (Legacy (mkTx [Byte.x01; Byte.x02; Byte.x03] (Some "BackendFeePayer"))),
        Demo.form,
        [ EvVersionedDeserialize [Byte.x01; Byte.x02; Byte.x03];
          EvTransactionFrom [Byte.x01; Byte.x02; Byte.x03] ]).
Proof.
  cbv zeta. split; [reflexivity|].
  pose proof (decodeTransaction_versioned_first
                (Demo.env_ok JNull) "AQID"
                (String "001" (String "002" (String "003" ""))) Demo.form
                eq_refl) as H.
  cbv zeta in H.
  destruct (solanaTx.decodeTransaction (Demo.env_ok JNull) "AQID" Demo.form)
    as [[res w'] t].
  destruct H as (Hw & _ & _ & Hl & _).
  destruct (Hl (Error "Versioned messages must have the version prefix set.") eq_refl)
    as [Ht Hres].
  subst w' t. rewrite Hres. reflexivity.
Defined.


(* ================================================================== *)
(** * Further properties of the handlers *)

(* ------------------------------------------------------------------ *)
(** ** The message of a failure *)

(** X1. The message a [catch] block shows is the thrown error's [message]
    when that is a non-empty string, else the thrown value itself when it
    is a non-empty string, else the card's default text; so with a
    non-empty default it is never empty. *)
Theorem catch_message_cases (dflt : string) (err : jsval) :
  catch_message dflt err =
    match prop err "message", err with
    | JStr (String a m), _ => String a m
    | _, JStr (String a s) => String a s
    | _, _ => dflt
    end
  /\ (dflt <> "" -> catch_message dflt err <> "").
Proof.
  assert (H : catch_message dflt err =
              match prop err "message", err with
              | JStr (String a m), _ => String a m
              | _, JStr (String a s) => String a s
              | _, _ => dflt
              end).
  { unfold catch_message, js_and, js_or.
    destruct err as [| |b|n|s|xs|fs]; cbn; try reflexivity.
    - destruct b; reflexivity.
    - destruct n as [| | |[|p|p] e]; reflexivity.
    - destruct s; reflexivity.
    - destruct (assoc "message" fs) as [| |b|n|s|xs|fs']; cbn; try reflexivity.
      destruct s; reflexivity. }
  split; [exact H|].
  intros Hd. rewrite H.
  destruct (prop err "message") as [| |b|n|s|xs|fs]; try destruct s;
    destruct err as [| |b'|n'|s'|xs'|fs']; try destruct s';
    first [exact Hd | discriminate].
Qed.

Lemma catch_message_cases_witness :
  "Taxed send failed." <> ""
  /\ catch_message "Taxed send failed." (Error "") <> "".
Proof.
  split; [discriminate|].
  apply (catch_message_cases "Taxed send failed." (Error "")). discriminate.
Defined.

(* ------------------------------------------------------------------ *)
(** ** Order and number of the calls *)

(** X2. In every submission the calls that leave the component come in
    the order request, decode, sign, broadcast, confirm, log, and each
    step occurs at most once: nothing is retried and nothing is
    reordered. *)
Theorem steps_in_order_at_most_once (c : Card) (env : Env) (w : World) :
  strictly_increasing (map stage (trace (submit c env w))) = true.
Proof.
  destruct w as [to amt ld er ls ap].
  destruct c; run_submit no_hint; reflexivity.
Qed.

(** X3. The third revision of the taxed send never waits for a
    confirmation and never calls [signTransaction] or
    [sendRawTransaction] itself: the only wallet or network call it makes
    after the request is the adapter's [sendTransaction], at most once. *)
Theorem adapter_never_confirms (env : Env) (w : World) :
  let t := trace (submit TaxedAdapter env w) in
  count is_confirm t = 0
  /\ (forall tx, ~ In (EvSignTransaction tx) t)
  /\ (forall raw, ~ In (EvSendRawTransaction raw) t)
  /\ count is_sign t <= 1.
Proof.
  destruct w as [to amt ld er ls ap]. cbv zeta.
  run_submit no_hint;
    (repeat split; try reflexivity; try (cbn; lia);
     intros x Hin; split_in Hin; discriminate Hin).
Qed.

(* ------------------------------------------------------------------ *)
(** ** Where a recorded signature comes from *)

(** X4. A signature is recorded only on three routes. It is the truthy
    value the card read from the signature fields of the body of the 2xx
    answer to its request, and then the request and the log append are the
    only calls (revisions with a fast path); or it is the signature the
    network returned for the broadcast, and then the confirmation wait for
    that very signature was made and succeeded; or, in the third revision,
    it is what the wallet adapter's [sendTransaction] returned. *)
Theorem recorded_signature_provenance
  (c : Card) (env : Env) (w : World) (v : jsval) :
  let r := submit c env w in
  lastSig (final r) = Some v ->
  (has_fast_path c = true
   /\ truthy v = true
   /\ exists url req resp data lbl,
        trace r = [EvFetch url req; EvLogAction lbl v]
        /\ fetch env url req = Ok resp
        /\ resp_ok resp = true
        /\ resp_json resp = Ok data
        /\ v = reported_signature c data)
  \/ (c <> TaxedAdapter
      /\ exists sig raw ok,
           v = JStr sig
           /\ In (EvSendRawTransaction raw) (trace r)
           /\ sendRawTransaction (connection env) raw = Ok sig
           /\ In (EvConfirmTransaction sig "confirmed") (trace r)
           /\ confirmTransaction (connection env) sig "confirmed" = Ok ok)
  \/ (c = TaxedAdapter
      /\ exists sig tx,
           v = JStr sig
           /\ In (EvSendTransaction tx (rpcUrl (networkConfig env))) (trace r)
           /\ sendTransaction (wallet env) tx (rpcUrl (networkConfig env)) = Ok sig).
Proof.
  destruct w as [to amt ld er ls ap]. cbv zeta.
  destruct c; run_submit no_hint; intros Hv; try discriminate Hv;
    injection Hv as <-.
  all: repeat match goal with
           | Hb : negb _ = true |- _ => apply negb_true_iff in Hb
           | Hb : negb _ = false |- _ => apply negb_false_iff in Hb
           end.
  all: first
    [ left; split; [reflexivity|]; split; [assumption|];
      do 5 eexists; split; [reflexivity|];
      split; [eassumption|]; split; [assumption|]; split; [eassumption|];
      reflexivity
    | right; left; split; [discriminate|];
      do 3 eexists; split; [reflexivity|];
      split; [do 3 right; left; reflexivity|];
      split; [eassumption|];
      split; [do 4 right; left; reflexivity | eassumption]
    | right; right; split; [reflexivity|];
      do 2 eexists; split; [reflexivity|];
      split; [do 2 right; left; reflexivity | eassumption] ].
Qed.

Lemma recorded_signature_provenance_witness :
  let env := Demo.env_ok (Broadcasted "SIG123") in
  lastSig (final (submit TaxedAdapter env Demo.form)) = Some (JStr "SIG123")
  /\ ((has_fast_path TaxedAdapter = true
       /\ truthy (JStr "SIG123") = true
       /\ exists url req resp data lbl,
            trace (submit TaxedAdapter env Demo.form)
            = [EvFetch url req; EvLogAction lbl (JStr "SIG123")]
            /\ fetch env url req = Ok resp
            /\ resp_ok resp = true
            /\ resp_json resp = Ok data
            /\ JStr "SIG123" = reported_signature TaxedAdapter data)
      \/ (TaxedAdapter <> TaxedAdapter
          /\ exists sig raw ok,
               JStr "SIG123" = JStr sig
               /\ In (EvSendRawTransaction raw) (trace (submit TaxedAdapter env Demo.form))
               /\ sendRawTransaction (connection env) raw = Ok sig
               /\ In (EvConfirmTransaction sig "confirmed")
                     (trace (submit TaxedAdapter env Demo.form))
               /\ confirmTransaction (connection env) sig "confirmed" = Ok ok)
      \/ (TaxedAdapter = TaxedAdapter
          /\ exists sig tx,
               JStr "SIG123" = JStr sig
               /\ In (EvSendTransaction tx (rpcUrl (networkConfig env)))
                     (trace (submit TaxedAdapter env Demo.form))
               /\ sendTransaction (wallet env) tx (rpcUrl (networkConfig env)) = Ok sig)).
Proof.
  cbv zeta. split; [reflexivity|].
  apply (recorded_signature_provenance
           TaxedAdapter (Demo.env_ok (Broadcasted "SIG123")) Demo.form (JStr "SIG123")).
  reflexivity.
Defined.

(* ------------------------------------------------------------------ *)
(** ** [trim] and [length] *)

Lemma length_String (c : ascii) (s : string) :
  String.length (String c s) = S (String.length s).
Proof. reflexivity. Qed.

(** White space outside ASCII is trimmed, a character of several bytes
    counts by its code units, and a character whose last byte is [A0] is
    left alone. *)
Lemma trim_and_length_examples :
  trim Doubles.em_space = ""
  /\ js_length Doubles.three_ellipses = 3
  /\ trim Doubles.a_grave_recipient = Doubles.a_grave_recipient
  /\ js_length Doubles.a_grave_recipient = 8
  /\ trim ("  ab c" ++ Doubles.nbsp_lf_bom)%string = "ab c".
Proof. repeat split; vm_compute; reflexivity. Qed.

(** A recipient of white space only, and one of three characters, are
    turned down before any request. *)
Lemma blank_and_short_recipients_are_refused :
  (let r := submit TaxedBasic (Demo.env_ok (Unsigned "AQID"))
                   (mkWorld Doubles.em_space "0.5" false None None App.init) in
   error (final r) = Some "Please enter a recipient address." /\ trace r = [])
  /\ (let r := submit TaxedDual (Demo.env_ok (Unsigned "AQID"))
                      (mkWorld Doubles.three_ellipses "0.5" false None None App.init) in
      error (final r) = Some "AKSOL recipient address looks incomplete."
      /\ trace r = []).
Proof. cbv zeta. repeat split. Qed.

Lemma rev_string_rev_string (s acc acc' : string) :
  rev_string (rev_string s acc) acc' = rev_string acc (s ++ acc')%string.
Proof.
  revert acc acc'. induction s as [|c s IH]; intros acc acc'.
  - reflexivity.
  - cbn [rev_string]. rewrite IH. reflexivity.
Qed.

Lemma append_empty_r (s : string) : (s ++ "")%string = s.
Proof. induction s as [|c s IH]; [reflexivity|]. change (String c s ++ "")%string with (String c (s ++ ""))%string. now rewrite IH. Qed.

Lemma rev_string_involutive (s : string) :
  rev_string (rev_string s "") "" = s.
Proof. rewrite rev_string_rev_string. cbn [rev_string]. apply append_empty_r. Qed.

Lemma rev_string_append (p q acc : string) :
  rev_string (p ++ q)%string acc = rev_string q (rev_string p acc).
Proof.
  revert acc. induction p as [|c p IH]; intros acc; [reflexivity|].
  change (String c p ++ q)%string with (String c (p ++ q))%string. cbn [rev_string]. apply IH.
Qed.

Lemma string_append_assoc (a b c : string) :
  ((a ++ b) ++ c)%string = (a ++ (b ++ c))%string.
Proof.
  induction a as [|x a IH]; [reflexivity|].
  change (String x (((a ++ b) ++ c))%string = String x (a ++ (b ++ c))%string).
  now rewrite IH.
Qed.

Lemma rev_string_acc (s acc : string) :
  rev_string s acc = (rev_string s "" ++ acc)%string.
Proof.
  revert acc. induction s as [|c s IH]; intros acc; [reflexivity|].
  cbn [rev_string]. rewrite IH. rewrite (IH (String c "")).
  rewrite string_append_assoc. reflexivity.
Qed.

Lemma length_append (a b : string) :
  String.length (a ++ b)%string = String.length a + String.length b.
Proof.
  induction a as [|c a IH]; [reflexivity|].
  change (String c a ++ b)%string with (String c (a ++ b))%string.
  rewrite !length_String, IH. reflexivity.
Qed.


Lemma trim_start_cases (P : string -> string -> Prop) :
  (forall s, (forall s', String.length s' < String.length s -> P s' (trim_start s')) ->
             P s (trim_start s)) ->
  forall s, P s (trim_start s).
Proof.
  intros HP s. remember (String.length s) as n eqn:Hn. revert s Hn.
  induction n as [n IH] using lt_wf_ind. intros s Hn. apply HP.
  intros s' Hlt. apply (IH (String.length s')); [lia | reflexivity].
Qed.

Lemma trim_start_suffix (s : string) : exists p, s = (p ++ trim_start s)%string.
Proof.
  apply (trim_start_cases (fun s t => exists p, s = (p ++ t)%string)). clear s.
  intros s IH. destruct s as [|c1 s1]; [exists ""; reflexivity|].
  cbn [trim_start]. destruct (is_space1 _).
  { destruct (IH s1) as [p Hp]; [rewrite length_String; lia|].
    exists (String c1 p). change (String c1 p ++ trim_start s1)%string with (String c1 (p ++ trim_start s1))%string.
    now rewrite <- Hp. }
  destruct s1 as [|c2 s2]; [exists ""; reflexivity|].
  destruct (is_space2 _ _).
  { destruct (IH s2) as [p Hp]; [rewrite !length_String; lia|].
    exists (String c1 (String c2 p)).
    change (String c1 (String c2 p) ++ trim_start s2)%string with (String c1 (String c2 (p ++ trim_start s2)))%string.
    now rewrite <- Hp. }
  destruct s2 as [|c3 s3]; [exists ""; reflexivity|].
  destruct (is_space3 _ _ _).
  { destruct (IH s3) as [p Hp]; [rewrite !length_String; lia|].
    exists (String c1 (String c2 (String c3 p))).
    change (String c1 (String c2 (String c3 p)) ++ trim_start s3)%string
      with (String c1 (String c2 (String c3 (p ++ trim_start s3))))%string.
    now rewrite <- Hp. }
  exists ""; reflexivity.
Qed.

Lemma trim_start_length (s : string) :
  String.length (trim_start s) <= String.length s.
Proof.
  destruct (trim_start_suffix s) as [p Hp].
  rewrite Hp at 2. rewrite length_append. lia.
Qed.

(** A prefix of a string that does not start with white space does not
    either. *)
Lemma trim_start_unfold (c1 : ascii) (s1 : string) :
  trim_start (String c1 s1)
  = if is_space1 (nat_of_ascii c1) then trim_start s1
    else
      match s1 with
      | EmptyString => String c1 s1
      | String c2 s2 =>
          if is_space2 (nat_of_ascii c1) (nat_of_ascii c2) then trim_start s2
          else
            match s2 with
            | EmptyString => String c1 s1
            | String c3 s3 =>
                if is_space3 (nat_of_ascii c1) (nat_of_ascii c2) (nat_of_ascii c3)
                then trim_start s3
                else String c1 s1
            end
      end.
Proof. reflexivity. Qed.

Lemma trim_start_prefix (a u : string) :
  trim_start (a ++ u)%string = (a ++ u)%string -> trim_start a = a.
Proof.
  intros H.
  assert (L1 : forall c x, trim_start x <> String c x).
  { intros c x E. pose proof (trim_start_length x) as L.
    rewrite E, length_String in L. lia. }
  assert (L2 : forall c c' x, trim_start x <> String c (String c' x)).
  { intros c c' x E. pose proof (trim_start_length x) as L.
    rewrite E, !length_String in L. lia. }
  assert (L3 : forall c c' c'' x, trim_start x <> String c (String c' (String c'' x))).
  { intros c c' c'' x E. pose proof (trim_start_length x) as L.
    rewrite E, !length_String in L. lia. }
  destruct a as [|c1 [|c2 [|c3 a3]]].
  - reflexivity.
  - change (String c1 "" ++ u)%string with (String c1 u) in H.
    rewrite trim_start_unfold in H; rewrite trim_start_unfold.
    destruct (is_space1 _); [|reflexivity].
    exfalso. exact (L1 _ _ H).
  - change (String c1 (String c2 "") ++ u)%string with (String c1 (String c2 u)) in H.
    rewrite trim_start_unfold in H; rewrite trim_start_unfold.
    destruct (is_space1 _); [exfalso; exact (L1 _ _ H)|].
    destruct (is_space2 _ _); [|reflexivity].
    exfalso. exact (L2 _ _ _ H).
  - change (String c1 (String c2 (String c3 a3)) ++ u)%string
      with (String c1 (String c2 (String c3 (a3 ++ u)%string))) in H.
    rewrite trim_start_unfold in H; rewrite trim_start_unfold.
    destruct (is_space1 _); [exfalso; exact (L1 _ _ H)|].
    destruct (is_space2 _ _); [exfalso; exact (L2 _ _ _ H)|].
    destruct (is_space3 _ _ _); [|reflexivity].
    exfalso. exact (L3 _ _ _ _ H).
Qed.

Lemma trim_start_idempotent (s : string) :
  trim_start (trim_start s) = trim_start s.
Proof.
  apply (trim_start_cases (fun _ t => trim_start t = t)). clear s.
  intros s IH. destruct s as [|c1 s1]; [reflexivity|].
  cbn [trim_start]. destruct (is_space1 _) eqn:E1.
  { apply IH. rewrite length_String. lia. }
  destruct s1 as [|c2 s2]; [cbn [trim_start]; rewrite E1; reflexivity|].
  destruct (is_space2 _ _) eqn:E2.
  { apply IH. rewrite !length_String. lia. }
  destruct s2 as [|c3 s3]; [cbn [trim_start]; rewrite E1, E2; reflexivity|].
  destruct (is_space3 _ _ _) eqn:E3.
  { apply IH. rewrite !length_String. lia. }
  cbn [trim_start]. rewrite E1, E2, E3. reflexivity.
Qed.

Lemma trim_start_rev_cases (P : string -> string -> Prop) :
  (forall s, (forall s', String.length s' < String.length s -> P s' (trim_start_rev s')) ->
             P s (trim_start_rev s)) ->
  forall s, P s (trim_start_rev s).
Proof.
  intros HP s. remember (String.length s) as n eqn:Hn. revert s Hn.
  induction n as [n IH] using lt_wf_ind. intros s Hn. apply HP.
  intros s' Hlt. apply (IH (String.length s')); [lia | reflexivity].
Qed.

Lemma trim_start_rev_suffix (s : string) :
  exists p, s = (p ++ trim_start_rev s)%string.
Proof.
  apply (trim_start_rev_cases (fun s t => exists p, s = (p ++ t)%string)). clear s.
  intros s IH. destruct s as [|c1 s1]; [exists ""; reflexivity|].
  cbn [trim_start_rev]. destruct (is_space1 _).
  { destruct (IH s1) as [p Hp]; [rewrite length_String; lia|].
    exists (String c1 p).
    change (String c1 s1 = String c1 (p ++ trim_start_rev s1)%string).
    now rewrite <- Hp. }
  destruct s1 as [|c2 s2]; [exists ""; reflexivity|].
  destruct (is_space2 _ _).
  { destruct (IH s2) as [p Hp]; [rewrite !length_String; lia|].
    exists (String c1 (String c2 p)).
    change (String c1 (String c2 s2)
            = String c1 (String c2 (p ++ trim_start_rev s2)%string)).
    now rewrite <- Hp. }
  destruct s2 as [|c3 s3]; [exists ""; reflexivity|].
  destruct (is_space3 _ _ _).
  { destruct (IH s3) as [p Hp]; [rewrite !length_String; lia|].
    exists (String c1 (String c2 (String c3 p))).
    change (String c1 (String c2 (String c3 s3))
            = String c1 (String c2 (String c3 (p ++ trim_start_rev s3)%string))).
    now rewrite <- Hp. }
  exists ""; reflexivity.
Qed.

Lemma trim_start_rev_idempotent (s : string) :
  trim_start_rev (trim_start_rev s) = trim_start_rev s.
Proof.
  apply (trim_start_rev_cases (fun _ t => trim_start_rev t = t)). clear s.
  intros s IH. destruct s as [|c1 s1]; [reflexivity|].
  cbn [trim_start_rev]. destruct (is_space1 _) eqn:E1.
  { apply IH. rewrite length_String. lia. }
  destruct s1 as [|c2 s2]; [cbn [trim_start_rev]; rewrite E1; reflexivity|].
  destruct (is_space2 _ _) eqn:E2.
  { apply IH. rewrite !length_String. lia. }
  destruct s2 as [|c3 s3]; [cbn [trim_start_rev]; rewrite E1, E2; reflexivity|].
  destruct (is_space3 _ _ _) eqn:E3.
  { apply IH. rewrite !length_String. lia. }
  cbn [trim_start_rev]. rewrite E1, E2, E3. reflexivity.
Qed.

(** What [trimEnd] returns is a prefix of its argument. *)
Lemma trim_end_prefix (s : string) : exists u, s = (trim_end s ++ u)%string.
Proof.
  unfold trim_end.
  destruct (trim_start_rev_suffix (rev_string s "")) as [p Hp].
  exists (rev_string p "").
  rewrite <- (rev_string_involutive s) at 1.
  rewrite Hp at 1. rewrite rev_string_append.
  apply rev_string_acc.
Qed.

Lemma trim_end_idempotent (s : string) : trim_end (trim_end s) = trim_end s.
Proof.
  unfold trim_end. rewrite rev_string_involutive, trim_start_rev_idempotent.
  reflexivity.
Qed.

(** Trimming what was trimmed changes nothing. *)
Lemma trim_idempotent (s : string) : trim (trim s) = trim s.
Proof.
  unfold trim.
  assert (H : trim_start (trim_end (trim_start s)) = trim_end (trim_start s)).
  { destruct (trim_end_prefix (trim_start s)) as [u Hu].
    apply (trim_start_prefix _ u). rewrite <- Hu. apply trim_start_idempotent. }
  rewrite H. apply trim_end_idempotent.
Qed.

(* ------------------------------------------------------------------ *)
(** ** What is sent to the backend *)

(** X5. Every request a card sends carries the amount parsed from the
    form, which is then finite and positive, the address of the connected
    wallet as sender, and the card's recipient: none for the purchase, the
    trimmed and non-empty recipient for the first two revisions of the
    taxed send (trimming it again changes nothing; at least 8 UTF-16 code
    units long in the second), the non-empty recipient as typed in the
    third. *)
Theorem request_is_well_formed
  (c : Card) (env : Env) (w : World) (url : string) (req : Request) :
  In (EvFetch url req) (trace (submit c env w)) ->
  amountUi req = Number env (amount w)
  /\ Number_isFinite (amountUi req) = true
  /\ num_le0 (amountUi req) = false
  /\ request_sender c env = Some (fromPubkey req)
  /\ toPubkey req = request_recipient c w
  /\ (forall to, toPubkey req = Some to -> to <> "")
  /\ (c = TaxedBasic \/ c = TaxedDual ->
      forall to, toPubkey req = Some to -> trim to = to)
  /\ (c = TaxedDual -> forall to, toPubkey req = Some to -> 8 <= js_length to).
Proof.
  destruct w as [to amt ld er ls ap].
  destruct c; run_submit no_hint; intros Hin; split_in Hin;
    try discriminate Hin; injection Hin as <- <-;
    cbn [amountUi fromPubkey toPubkey request_sender request_recipient
         toAddress amount];
    repeat match goal with
           | Hb : _ || _ = false |- _ =>
               apply orb_false_elim in Hb; destruct Hb
           | Hb : negb _ = false |- _ => apply negb_false_iff in Hb
           end;
    (repeat split; try assumption; try reflexivity; try discriminate;
     try (intros ? Heq; injection Heq as <-;
          first [ now apply String.eqb_neq
                | intros Hc;
                  match goal with
                  | Hl : (js_length (trim _) <? 8)%nat = false |- _ =>
                      rewrite Hc in Hl; discriminate Hl
                  end ]);
     try (intros [Hc|Hc]; discriminate Hc);
     try (intros _ ? Heq; injection Heq as <-; apply trim_idempotent);
     try (intros _ ? Heq; injection Heq as <-; now apply Nat.ltb_ge)).
Qed.

Lemma request_is_well_formed_witness :
  let env := Demo.env_ok (Broadcasted "SIG123") in
  let req := mkReq "Wallet1" (Some "Wallet2Address") (JFinite 1 (-1)) "devnet" in
  In (EvFetch "http://localhost:8080/aksol/send-taxed-tx" req)
     (trace (submit TaxedDual env Demo.form))
  /\ num_le0 (amountUi req) = false.
Proof.
  cbv zeta. split; [left; reflexivity|].
  apply (request_is_well_formed
           TaxedDual (Demo.env_ok (Broadcasted "SIG123")) Demo.form
           "http://localhost:8080/aksol/send-taxed-tx"
           (mkReq "Wallet1" (Some "Wallet2Address") (JFinite 1 (-1)) "devnet")).
  left. reflexivity.
Defined.

(* ------------------------------------------------------------------ *)
(** ** Failures at the backend boundary *)

Lemma catch_message_Error_cons (dflt : string) (a : ascii) (m : string) :
  catch_message dflt (Error (String a m)) = String a m.
Proof. reflexivity. Qed.

Lemma resp_ok_not_2xx (st : Z) (j : result jsval) :
  ~ (200 <= st <= 299)%Z -> resp_ok (mkResp st j) = false.
Proof.
  unfold resp_ok. cbn [status]. intros H.
  destruct (200 <=? st)%Z eqn:H1; destruct (st <=? 299)%Z eqn:H2;
    try reflexivity. exfalso. apply H. lia.
Qed.

(** X6. When the backend answers with a status outside 200..299, a
    submission that reached the request fails with the message
    "Backend HTTP <status>": the body is not looked at, nothing is decoded,
    signed or broadcast, and the one record appended carries that message
    and no signature. *)
Theorem http_error_status_is_reported
  (c : Card) (env : Env) (w : World) (st : Z) (body : result jsval) :
  ~ (200 <= st <= 299)%Z ->
  (forall url req, fetch env url req = Ok (mkResp st body)) ->
  let r := submit c env w in
  count is_fetch (trace r) = 1 ->
  error (final r) = Some ("Backend HTTP " ++ string_of_Z st)%string
  /\ lastSig (final r) = None
  /\ escaped r = None
  /\ exists url req,
       trace r = [ EvFetch url req;
                   EvLogAction (failure_prefix c ++ "Backend HTTP " ++ string_of_Z st)
                               JUndefined ].
Proof.
  intros Hst H.
  pose proof (resp_ok_not_2xx st body Hst) as Hok.
  destruct w as [to amt ld er ls ap]. cbv zeta.
  destruct c;
    run_submit ltac:(fun h =>
      repeat first [ rewrite H in h | rewrite Hok in h | progress cbn in h ]);
    intros Hf; try discriminate Hf;
    change ("Backend HTTP " ++ string_of_Z st)%string
      with (String "B" ("ackend HTTP " ++ string_of_Z st)%string) in *;
    rewrite catch_message_Error_cons;
    (repeat split; do 2 eexists; reflexivity).
Qed.

Lemma http_error_status_is_reported_witness :
  let env := Demo.env (Ok (mkResp 500 (Err (Error "Unexpected end of JSON input"))))
                      Demo.confirmed in
  ~ (200 <= 500 <= 299)%Z
  /\ count is_fetch (trace (submit Purchase env Demo.form)) = 1
  /\ error (final (submit Purchase env Demo.form)) = Some "Backend HTTP 500".
Proof.
  cbv zeta. split; [lia|]. split; [reflexivity|].
  apply (http_error_status_is_reported
           Purchase
           (Demo.env (Ok (mkResp 500 (Err (Error "Unexpected end of JSON input"))))
                     Demo.confirmed)
           Demo.form 500 (Err (Error "Unexpected end of JSON input")));
    [lia | intros url req; reflexivity | reflexivity].
Defined.

(** X7. When the request itself fails (no response), a submission that
    reached it reports the message of the thrown value, appends one
    failure record without a signature, and calls nothing else. *)
Theorem unreachable_backend_is_reported
  (c : Card) (env : Env) (w : World) (e : jsval) :
  (forall url req, fetch env url req = Err e) ->
  let r := submit c env w in
  count is_fetch (trace r) = 1 ->
  let msg := catch_message (failure_default c) e in
  error (final r) = Some msg
  /\ lastSig (final r) = None
  /\ escaped r = None
  /\ exists url req,
       trace r = [EvFetch url req; EvLogAction (failure_prefix c ++ msg) JUndefined].
Proof.
  intros H. destruct w as [to amt ld er ls ap]. cbv zeta.
  destruct c;
    run_submit ltac:(fun h =>
      repeat first [ rewrite H in h | progress cbn in h ]);
    intros Hf; try discriminate Hf;
    (repeat split; do 2 eexists; reflexivity).
Qed.

Lemma unreachable_backend_is_reported_witness :
  let env := Demo.env (Err (Error "Failed to fetch")) Demo.confirmed in
  count is_fetch (trace (submit TaxedBasic env Demo.form)) = 1
  /\ error (final (submit TaxedBasic env Demo.form)) = Some "Failed to fetch".
Proof.
  cbv zeta. split; [reflexivity|].
  apply (unreachable_backend_is_reported
           TaxedBasic (Demo.env (Err (Error "Failed to fetch")) Demo.confirmed)
           Demo.form (Error "Failed to fetch"));
    [intros url req; reflexivity | reflexivity].
Defined.

(* ------------------------------------------------------------------ *)
(** ** What a submission leaves behind *)

(** X8. A submission never changes what is typed into the form and never
    toggles the view mode. If it reached the request, the [loading] flag is
    off when it ends, whatever happened in between; if it stopped at a
    check, the flag is as it was. *)
Theorem form_kept_and_loading_released (c : Card) (env : Env) (w : World) :
  let r := submit c env w in
  toAddress (final r) = toAddress w
  /\ amount (final r) = amount w
  /\ App.publicMode (app (final r)) = App.publicMode (app w)
  /\ (count is_fetch (trace r) = 1 /\ loading (final r) = false
      \/ count is_fetch (trace r) = 0 /\ loading (final r) = loading w).
Proof.
  destruct w as [to amt ld er ls [pm acts tk]]. cbv zeta.
  destruct c; run_submit no_hint;
    (repeat split; try reflexivity;
     first [left; split; reflexivity | right; split; reflexivity]).
Qed.

(** X9. The log after a submission: if the submission appended nothing the
    application state is untouched; otherwise the log is the new record in
    front of the two newest old ones. The new record of a failed
    submission has no signature, hence no explorer link in the activity
    card; the new record of a successful one holds the recorded
    signature. *)
Theorem submission_log_record (c : Card) (env : Env) (w : World) :
  let r := submit c env w in
  (count is_log (trace r) = 0 /\ app (final r) = app w)
  \/ (exists lbl sig,
        let item := App.new_item (clock env) (App.tick (app w)) lbl sig in
        count is_log (trace r) = 1
        /\ In (EvLogAction lbl sig) (trace r)
        /\ App.activities (app (final r))
           = item :: firstn 2 (App.activities (app w))
        /\ (forall msg, error (final r) = Some msg ->
              sig = JUndefined /\ ActivityCard.explorerUrl env item = None)
        /\ (error (final r) = None -> lastSig (final r) = Some sig)).
Proof.
  destruct w as [to amt ld er ls [pm acts tk]]. cbv zeta.
  destruct c; run_submit no_hint;
    first
      [ left; split; reflexivity
      | right; do 2 eexists; split; [reflexivity|];
        split; [in_list|]; split; [reflexivity|];
        split; [ intros msg Hm; first [discriminate Hm | split; reflexivity]
               | intros Hn; first [discriminate Hn | reflexivity] ] ].
Qed.

(** X10. Without a connected wallet no card sends a request: the
    submission sets one of the wallet messages, appends exactly one failure
    record without a signature, and calls nothing else (in the third
    revision, provided the backend URL is configured, which is checked
    first). *)
Theorem missing_wallet_stops_before_request (c : Card) (env : Env) (w : World) :
  wallet_missing c env = true ->
  let r := submit c env w in
  count is_fetch (trace r) = 0
  /\ lastSig (final r) = None
  /\ (exists msg, error (final r) = Some msg /\ In msg wallet_check_messages)
  /\ exists lbl, trace r = [EvLogAction lbl JUndefined].
Proof.
  intros Hm. destruct w as [to amt ld er ls ap]. cbv zeta.
  destruct c; cbn in Hm; run_submit no_hint;
    try match goal with
        | Heq : nonempty (walletPublicKey env) = _ |- _ => rewrite Heq in Hm
        end;
    try discriminate Hm;
    (repeat split; [eexists; split; [reflexivity | in_list] | eexists; reflexivity]).
Qed.

Lemma missing_wallet_stops_before_request_witness :
  wallet_missing Purchase Doubles.env_no_wallet = true
  /\ count is_fetch (trace (submit Purchase Doubles.env_no_wallet Demo.form)) = 0.
Proof.
  split; [reflexivity|].
  apply (missing_wallet_stops_before_request Purchase Doubles.env_no_wallet Demo.form).
  reflexivity.
Defined.

(* ------------------------------------------------------------------ *)
(** ** A body that holds both a signature and a transaction *)

(** X11. In the revisions with a fast path the signature wins: whenever
    the [signature] field of a 2xx body is truthy, a submission that
    reached the request records that value and logs it, and the body's
    transaction, if it has one, is never decoded, signed or sent. *)
Theorem signature_wins_over_transaction
  (c : Card) (env : Env) (w : World) (st : Z) (data : jsval) :
  has_fast_path c = true ->
  (200 <= st <= 299)%Z ->
  backend_replies env st data ->
  truthy (prop data "signature") = true ->
  let r := submit c env w in
  count is_fetch (trace r) = 1 ->
  lastSig (final r) = Some (prop data "signature")
  /\ error (final r) = None
  /\ exists url req lbl,
       trace r = [EvFetch url req; EvLogAction lbl (prop data "signature")].
Proof.
  intros Hc Hst H Hsig.
  pose proof (resp_ok_2xx st (Ok data) Hst) as Hok.
  assert (Hnn : is_nullish data = false)
    by (destruct data; try reflexivity; discriminate Hsig).
  destruct w as [to amt ld er ls ap]. cbv zeta.
  destruct c; try discriminate Hc;
    run_submit ltac:(fun h =>
      repeat first [ rewrite H in h | rewrite Hok in h | rewrite Hnn in h
                   | rewrite Hsig in h
                   | progress unfold_fields_in h | progress cbn in h ]);
    intros Hf; try discriminate Hf;
    (repeat split; do 3 eexists; reflexivity).
Qed.

Lemma signature_wins_over_transaction_witness :
  let data := success_body (Some "SIG123") (Some "AQID") in
  let env := Demo.env_ok data in
  has_fast_path TaxedDual = true
  /\ (200 <= 200 <= 299)%Z
  /\ backend_replies env 200 data
  /\ truthy (prop data "signature") = true
  /\ count is_fetch (trace (submit TaxedDual env Demo.form)) = 1
  /\ lastSig (final (submit TaxedDual env Demo.form)) = Some (JStr "SIG123").
Proof.
  cbv zeta. split; [reflexivity|]. split; [lia|].
  split; [intros url req; reflexivity|]. split; [reflexivity|].
  split; [reflexivity|].
  apply (signature_wins_over_transaction
           TaxedDual (Demo.env_ok (success_body (Some "SIG123") (Some "AQID")))
           Demo.form 200 (success_body (Some "SIG123") (Some "AQID")));
    [reflexivity | lia | intros url req; reflexivity | reflexivity | reflexivity].
Defined.

(* ================================================================== *)
(** * The status card *)

Arguments App.new_item : simpl never.

Ltac unfold_eff_in H :=
  unfold erun, etry_catch_finally, ebind, ecall, elift, ethrow, eret, ereturn,
    emit, eread, eupdate in H.

Ltac run_check tac :=
  match goal with
  | |- context [StatusCard.check ?d ?s] =>
      let r := fresh "r" in
      let Hr := fresh "Hr" in
      remember (StatusCard.check d s) as r eqn:Hr;
      unfold StatusCard.check, StatusCard.handleCheckStatus,
        StatusCard.setLoading, StatusCard.setData, StatusCard.setError,
        StatusCard.logAction in Hr;
      unfold_eff_in Hr; exec_in Hr tac; subst r;
      cbn [fst snd StatusCard.loading StatusCard.data StatusCard.error
           StatusCard.showDebug StatusCard.app]
  end.

(** X12. Every status check sends exactly one request and appends exactly
    one record to the activity log, whatever the backend does; it ends
    with [loading] off and lets no exception escape. *)
Theorem status_check_logs_exactly_once (d : StatusCard.Deps) (s : StatusCard.State) :
  let r := StatusCard.check d s in
  fst (fst r) = None
  /\ StatusCard.loading (snd (fst r)) = false
  /\ (exists url cl lbl,
        snd r = [StatusCard.Fetch url cl; StatusCard.LogAction lbl]
        /\ App.activities (StatusCard.app (snd (fst r)))
           = App.new_item (StatusCard.clock d) (App.tick (StatusCard.app s)) lbl JUndefined
               :: firstn 2 (App.activities (StatusCard.app s))).
Proof.
  destruct s as [ld dt er sd [pm acts tk]]. cbv zeta.
  run_check no_hint; (repeat split; do 3 eexists; split; reflexivity).
Qed.

Lemma resp_ok_range (a : Response) :
  resp_ok a = true -> (200 <= status a <= 299)%Z.
Proof. unfold resp_ok. intros H. apply andb_prop in H. lia. Qed.

(** X13. A check that ends with an error does not clear what an earlier
    check stored: the stored body is the one from before, unless the
    backend answered 2xx with the JSON value [null], which is stored
    before the failure. So after a failed check the card can still hold,
    and show, an earlier [ok: true]. *)
Theorem failed_check_keeps_stale_data
  (d : StatusCard.Deps) (s : StatusCard.State) (msg : string) :
  let s' := snd (fst (StatusCard.check d s)) in
  StatusCard.error s' = Some msg ->
  (StatusCard.data s' = StatusCard.data s
   /\ StatusCard.isOk s' = StatusCard.isOk s)
  \/ (is_nullish (StatusCard.data s') = true
      /\ exists url cl st,
           StatusCard.fetch d url cl = Ok (mkResp st (Ok (StatusCard.data s')))
           /\ (200 <= st <= 299)%Z).
Proof.
  destruct s as [ld dt er sd ap]. cbv zeta.
  run_check no_hint; intros Hm; try discriminate Hm;
    first
      [ left; split; reflexivity
      | right; split; [assumption|];
        match goal with
        | Hf : StatusCard.fetch d ?u ?c = Ok ?a, Hj : resp_json ?a = Ok ?j,
          Hk : negb (resp_ok ?a) = false |- _ =>
            exists u, c, (status a); split;
            [ rewrite Hf; destruct a as [st rj]; cbn in Hj |- *; now rewrite Hj
            | apply resp_ok_range; now apply negb_false_iff ]
        end ].
Qed.

Lemma failed_check_keeps_stale_data_witness :
  let d := Doubles.status_deps (Err (Error "Failed to fetch")) in
  let s' := snd (fst (StatusCard.check d Doubles.status_online)) in
  StatusCard.error s' = Some "Failed to fetch"
  /\ StatusCard.isOk s' = true.
Proof.
  cbv zeta. split; [reflexivity|].
  destruct (failed_check_keeps_stale_data
              (Doubles.status_deps (Err (Error "Failed to fetch")))
              Doubles.status_online "Failed to fetch" eq_refl)
    as [[_ H]|[H _]].
  - exact H.
  - discriminate H.
Defined.

(** X14. After a check that ends without an error the stored body is the
    2xx JSON body just received, and the record appended says "backend
    online" exactly when the body's [ok] is truthy. In particular, whenever
    the card then shows its "Backend online" banner ([ok] is [true]), the
    log says so too. *)
Theorem clean_check_log_matches_body (d : StatusCard.Deps) (s : StatusCard.State) :
  let r := StatusCard.check d s in
  let s' := snd (fst r) in
  StatusCard.error s' = None ->
  (exists url cl st,
      StatusCard.fetch d url cl = Ok (mkResp st (Ok (StatusCard.data s')))
      /\ (200 <= st <= 299)%Z)
  /\ (truthy (prop (StatusCard.data s') "ok") = true ->
      In (StatusCard.LogAction "System status: backend online") (snd r))
  /\ (truthy (prop (StatusCard.data s') "ok") = false ->
      In (StatusCard.LogAction "System status: backend reported an error") (snd r))
  /\ (StatusCard.isOk s' = true ->
      In (StatusCard.LogAction "System status: backend online") (snd r)).
Proof.
  destruct s as [ld dt er sd ap]. cbv zeta.
  run_check no_hint; intros Hm; try discriminate Hm;
    (split;
     [ match goal with
       | Hf : StatusCard.fetch d ?u ?c = Ok ?a, Hj : resp_json ?a = Ok ?j,
         Hk : negb (resp_ok ?a) = false |- _ =>
           exists u, c, (status a); split;
           [ rewrite Hf; destruct a as [st rj]; cbn in Hj |- *; now rewrite Hj
           | apply resp_ok_range; now apply negb_false_iff ]
       end
     | unfold StatusCard.isOk; cbn [StatusCard.data];
       repeat split; intros Ht;
       first [ right; left; reflexivity
             | congruence
             | match goal with
               | Hq : truthy (prop ?j "ok") = false |- _ =>
                   destruct (prop j "ok") as [| |[|]| | | |];
                   first [discriminate Ht | discriminate Hq]
               end ] ]).
Qed.

Lemma clean_check_log_matches_body_witness :
  let d := Doubles.status_deps (Ok (mkResp 200 (Ok (JObj [("ok", JBool true)])))) in
  StatusCard.error (snd (fst (StatusCard.check d StatusCard.init))) = None
  /\ In (StatusCard.LogAction "System status: backend online")
        (snd (StatusCard.check d StatusCard.init)).
Proof.
  cbv zeta. split; [reflexivity|].
  apply (clean_check_log_matches_body
           (Doubles.status_deps (Ok (mkResp 200 (Ok (JObj [("ok", JBool true)])))))
           StatusCard.init eq_refl).
  reflexivity.
Defined.

(* ================================================================== *)
(** * Helpers around the handlers *)

(* ------------------------------------------------------------------ *)
(** ** [postJson] *)

(** X20. [postJson] sends a request exactly when a backend base is
    configured, and then exactly one, to the base followed by the path and
    with the body it was given. Without a base, as in a production build
    that sets no [VITE_BACKEND_BASE_URL], it fails with the configuration
    error before anything is sent. It succeeds only with the JSON of a 2xx
    response. *)
Theorem postJson_requests (d : api.Deps) (path : string) (body : jsval) :
  let r := api.postJson d path body in
  (api.BACKEND_BASE d = "" ->
   r = (Err (Error "BACKEND_BASE is not configured for this environment"), []))
  /\ (api.BACKEND_BASE d <> "" ->
      snd r = [((api.BACKEND_BASE d ++ path)%string, body)])
  /\ (api.DEV d = false -> nonempty (api.VITE_BACKEND_BASE_URL d) = None ->
      snd r = [])
  /\ (forall j, fst r = Ok j ->
        exists resp,
          api.fetch d (api.BACKEND_BASE d ++ path)%string body = Ok resp
          /\ (200 <= api.http_status resp <= 299)%Z
          /\ api.http_json resp = Ok j).
Proof.
  cbv zeta. unfold api.postJson, api.buildUrl.
  destruct (api.BACKEND_BASE d =? "") eqn:Hb.
  - apply String.eqb_eq in Hb. repeat split; try reflexivity.
    + intros Hne. now elim Hne.
    + intros j Hj. discriminate Hj.
  - apply String.eqb_neq in Hb.
    assert (Hdev : api.DEV d = false ->
                   nonempty (api.VITE_BACKEND_BASE_URL d) = None -> False).
    { intros Hd Hn. apply Hb. unfold api.BACKEND_BASE, or_default.
      rewrite Hd. unfold nonempty in Hn.
      destruct (api.VITE_BACKEND_BASE_URL d) as [s|]; [|reflexivity].
      destruct (s =? ""); [reflexivity | discriminate Hn]. }
    destruct (api.fetch d (api.BACKEND_BASE d ++ path)%string body) as [resp|e] eqn:Hf;
      [ destruct (negb (api.http_ok resp)) eqn:Hok;
        [ destruct (api.http_text resp) | ] | ];
      cbn [fst snd]; repeat split;
      try (intros Hx; now elim Hb);
      try (intros Hd Hn; now elim (Hdev Hd Hn));
      try (intros j Hj; discriminate Hj).
    intros j Hj. exists resp. split; [reflexivity|]. split; [|exact Hj].
    apply negb_false_iff in Hok. unfold api.http_ok in Hok.
    apply andb_prop in Hok. lia.
Qed.

Lemma postJson_requests_witness :
  let d := Doubles.api_deps None false in
  api.BACKEND_BASE d = ""
  /\ api.postJson d "/aksol/status" JNull
     = (Err (Error "BACKEND_BASE is not configured for this environment"), []).
Proof.
  cbv zeta. split; [reflexivity|].
  apply (postJson_requests (Doubles.api_deps None false) "/aksol/status" JNull).
  reflexivity.
Defined.

(* ------------------------------------------------------------------ *)
(** ** The network table and the card that reads it *)

(** X21. When the third revision of the taxed send is given the entry of
    [NETWORKS] for network [n], that entry is the one named [n]; every
    request names [n] as its cluster, the wallet is asked to send through
    that entry's RPC URL (the variable from the environment when it is
    defined, else the public endpoint of [n]), and a success is logged as
    MAINNET exactly on mainnet-beta. *)
Theorem adapter_follows_network_table
  (e : networkConfig.ImportMetaEnv) (n : NetworkName) (env : Env) (w : World) :
  networkConfig env = networkConfig.props (networkConfig.NETWORKS e n) ->
  let r := submit TaxedAdapter env w in
  networkConfig.name (networkConfig.NETWORKS e n) = n
  /\ (forall url req, In (EvFetch url req) (trace r) ->
        cluster req = NetworkName_str n)
  /\ (forall tx rpc, In (EvSendTransaction tx rpc) (trace r) ->
        rpc = networkConfig.nullish_default
                (match n with
                 | devnet => networkConfig.VITE_SOLANA_DEVNET_RPC e
                 | mainnet_beta => networkConfig.VITE_SOLANA_MAINNET_RPC e
                 end)
                ("https://api." ++ NetworkName_str n ++ ".solana.com"))
  /\ (forall lbl sig, In (EvLogAction lbl sig) (trace r) ->
        error (final r) = None ->
        lbl = match n with
              | mainnet_beta => "Taxed send (MAINNET)"
              | devnet => "Taxed send (devnet)"
              end).
Proof.
  intros Hn. destruct w as [to amt ld er ls ap]. cbv zeta.
  assert (Hname : net_name (networkConfig env) = n)
    by (rewrite Hn; destruct n; reflexivity).
  assert (Hrpc : rpcUrl (networkConfig env)
                 = networkConfig.nullish_default
                     (match n with
                      | devnet => networkConfig.VITE_SOLANA_DEVNET_RPC e
                      | mainnet_beta => networkConfig.VITE_SOLANA_MAINNET_RPC e
                      end)
                     ("https://api." ++ NetworkName_str n ++ ".solana.com"))
    by (rewrite Hn; destruct n; reflexivity).
  assert (Hlbl : ("Taxed send (" ++ TaxedSendAdapter.modeLabel env ++ ")")%string
                 = match n with
                   | mainnet_beta => "Taxed send (MAINNET)"
                   | devnet => "Taxed send (devnet)"
                   end)
    by (unfold TaxedSendAdapter.modeLabel, TaxedSendAdapter.isMainnet;
        rewrite Hname; destruct n; reflexivity).
  split; [destruct n; reflexivity|].
  run_submit no_hint;
    (repeat split;
     [ intros url req Hin | intros tx rpc Hin | intros lbl sig Hin Herr ];
     split_in Hin; try discriminate Hin; try discriminate Herr;
     first [ injection Hin as <- <-; cbn [cluster]; now rewrite Hname
           | injection Hin as <- <-; exact Hrpc
           | injection Hin as <- <-; exact Hlbl ]).
Qed.

Lemma adapter_follows_network_table_witness :
  let env := Doubles.env_mainnet (Broadcasted "SIG123") in
  networkConfig env
  = networkConfig.props (networkConfig.NETWORKS Doubles.no_env_vars mainnet_beta)
  /\ forall url req,
       In (EvFetch url req) (trace (submit TaxedAdapter env Demo.form)) ->
       cluster req = "mainnet-beta".
Proof.
  cbv zeta. split; [reflexivity|].
  apply (adapter_follows_network_table
           Doubles.no_env_vars mainnet_beta
           (Doubles.env_mainnet (Broadcasted "SIG123")) Demo.form).
  reflexivity.
Defined.

(* ------------------------------------------------------------------ *)
(** ** [formatAgo] *)

(** X22. For a block time other than 0, [formatAgo] shows the elapsed time
    in whole units, rounded down: "Just now" below one minute (and for a
    block time in the future), else the minutes from 1 to 59, else the
    hours from 1 to 23, else the days from 1 on; a count of 0 is never
    shown, and the unit takes its "s" exactly when the count is not 1. A
    missing block time and the block time 0 both read "No recent
    activity". *)
Theorem formatAgo_whole_units (now ts : Z) :
  ts <> 0%Z ->
  let d := (now - ts * 1000)%Z in
  let out := WalletOverview.formatAgo now (Some ts) in
  WalletOverview.formatAgo now None = "No recent activity"
  /\ WalletOverview.formatAgo now (Some 0%Z) = "No recent activity"
  /\ (((d < 60000)%Z /\ out = "Just now")
      \/ (exists n, (1 <= n < 60)%Z /\ (n * 60000 <= d < (n + 1) * 60000)%Z
                    /\ out = (string_of_Z n ++ " min ago")%string)
      \/ (exists n, (1 <= n < 24)%Z /\ (n * 3600000 <= d < (n + 1) * 3600000)%Z
                    /\ out = (string_of_Z n ++ " hr"
                              ++ (if (n =? 1)%Z then "" else "s") ++ " ago")%string)
      \/ (exists n, (1 <= n)%Z /\ (n * 86400000 <= d < (n + 1) * 86400000)%Z
                    /\ out = (string_of_Z n ++ " day"
                              ++ (if (n =? 1)%Z then "" else "s") ++ " ago")%string)).
Proof.
  intros Hts. cbv zeta. split; [reflexivity|]. split; [reflexivity|].
  unfold WalletOverview.formatAgo.
  destruct (ts =? 0)%Z eqn:H0; [apply Z.eqb_eq in H0; contradiction|].
  change (60 * 1000)%Z with 60000%Z.
  set (d := (now - ts * 1000)%Z).
  destruct (Z.ltb_spec d 0) as [Hneg|Hpos]; [left; split; [lia|reflexivity]|].
  set (q := (d / 60000)%Z). set (h := (q / 60)%Z). set (dy := (h / 24)%Z).
  assert (Hq : (60000 * q <= d < 60000 * (q + 1))%Z).
  { subst q. pose proof (Z.mul_div_le d 60000 ltac:(lia)).
    pose proof (Z.mul_succ_div_gt d 60000 ltac:(lia)). lia. }
  assert (Hh : (60 * h <= q < 60 * (h + 1))%Z).
  { subst h. pose proof (Z.mul_div_le q 60 ltac:(lia)).
    pose proof (Z.mul_succ_div_gt q 60 ltac:(lia)). lia. }
  assert (Hd : (24 * dy <= h < 24 * (dy + 1))%Z).
  { subst dy. pose proof (Z.mul_div_le h 24 ltac:(lia)).
    pose proof (Z.mul_succ_div_gt h 24 ltac:(lia)). lia. }
  destruct (Z.ltb_spec q 1) as [Hq1|Hq1]; [left; split; [lia|reflexivity]|].
  destruct (Z.ltb_spec q 60) as [Hq60|Hq60].
  - right. left. exists q. repeat split; try lia.
  - destruct (Z.ltb_spec h 24) as [Hh24|Hh24].
    + right. right. left. exists h. repeat split; try lia.
    + right. right. right. exists dy. repeat split; try lia.
Qed.

Lemma formatAgo_whole_units_witness :
  let now := 1700007200000%Z in
  let ts := 1700000000%Z in
  ts <> 0%Z
  /\ WalletOverview.formatAgo now (Some ts) = "2 hrs ago"
  /\ (((now - ts * 1000 < 60000)%Z
       /\ WalletOverview.formatAgo now (Some ts) = "Just now")
      \/ (exists n, (1 <= n < 60)%Z
                    /\ (n * 60000 <= now - ts * 1000 < (n + 1) * 60000)%Z
                    /\ WalletOverview.formatAgo now (Some ts)
                       = (string_of_Z n ++ " min ago")%string)
      \/ (exists n, (1 <= n < 24)%Z
                    /\ (n * 3600000 <= now - ts * 1000 < (n + 1) * 3600000)%Z
                    /\ WalletOverview.formatAgo now (Some ts)
                       = (string_of_Z n ++ " hr"
                          ++ (if (n =? 1)%Z then "" else "s") ++ " ago")%string)
      \/ (exists n, (1 <= n)%Z
                    /\ (n * 86400000 <= now - ts * 1000 < (n + 1) * 86400000)%Z
                    /\ WalletOverview.formatAgo now (Some ts)
                       = (string_of_Z n ++ " day"
                          ++ (if (n =? 1)%Z then "" else "s") ++ " ago")%string)).
Proof.
  cbv zeta. split; [discriminate|]. split; [reflexivity|].
  apply (formatAgo_whole_units 1700007200000 1700000000). discriminate.
Defined.

(* ------------------------------------------------------------------ *)
(** ** The abbreviated signature *)






(* ------------------------------------------------------------------ *)
(** ** Text that is not base64 *)

(** X24. An envelope that is not base64 never reaches a parser:
    [decodeTransaction] throws what [atob] throws, calls neither the
    versioned nor the legacy parser, and leaves the state alone. *)
Theorem bad_base64_reaches_no_parser (env : Env) (base64 : string) (w : World) :
  forgiving_base64_decode base64 = None ->
  solanaTx.decodeTransaction env base64 w = (Throw (atob_error env), w, []).
Proof.
  intros H. unfold solanaTx.decodeTransaction, solanaTx.base64ToUint8Array,
    try_catch, bind, lift, atob.
  now rewrite H.
Qed.

Lemma bad_base64_reaches_no_parser_witness :
  forgiving_base64_decode "not base64!" = None
  /\ solanaTx.decodeTransaction (Demo.env_ok JNull) "not base64!" Demo.form
     = (Throw (atob_error (Demo.env_ok JNull)), Demo.form, []).
Proof.
  split; [reflexivity|].
  apply (bad_base64_reaches_no_parser (Demo.env_ok JNull) "not base64!" Demo.form).
  reflexivity.
Defined.

(* ================================================================== *)
(** * The storefront card *)

Ltac run_store tac :=
  match goal with
  | |- context [StorefrontPurchaseCard.submit ?d ?s] =>
      let r := fresh "r" in
      let Hr := fresh "Hr" in
      remember (StorefrontPurchaseCard.submit d s) as r eqn:Hr;
      unfold StorefrontPurchaseCard.submit, StorefrontPurchaseCard.handleSubmit,
        StorefrontPurchaseCard.alert, StorefrontPurchaseCard.logAction,
        StorefrontPurchaseCard.setSubmitting, StorefrontPurchaseCard.setSolAmount,
        StorefrontPurchaseCard.setRecipient, StorefrontPurchaseCard.setNote in Hr;
      unfold_eff_in Hr; exec_in Hr tac; subst r;
      cbn [fst snd StorefrontPurchaseCard.open StorefrontPurchaseCard.solAmount
           StorefrontPurchaseCard.recipient StorefrontPurchaseCard.note
           StorefrontPurchaseCard.submitting StorefrontPurchaseCard.app]
  end.

Arguments StorefrontPurchaseCard.to_string : simpl never.
Arguments num_gt0 : simpl never.

Section Storefront.

Import StorefrontPurchaseCard.

(** X15. Every storefront submission shows exactly one alert, as its last
    effect, and appends a record exactly when it sent a request: it is
    either the one alert of a check of the form, or one request, one
    record and one alert, in that order. No exception escapes. *)
Theorem storefront_one_alert_log_iff_request (d : Deps) (s : State) :
  let r := StorefrontPurchaseCard.submit d s in
  fst (fst r) = None
  /\ ((exists msg, snd r = [Alert msg] /\ snd (fst r) = s)
      \/ (exists url body lbl msg,
            snd r = [Fetch url body; LogAction lbl; Alert msg]
            /\ submitting (snd (fst r)) = false
            /\ open (snd (fst r)) = open s)).
Proof.
  destruct s as [op sol rcp nt sb ap]. cbv zeta.
  run_store no_hint;
    (split; [reflexivity|];
     first [ left; eexists; split; reflexivity
           | right; do 4 eexists; repeat split; reflexivity ]).
Qed.

(** X16. Off mainnet, in the developer view, with an empty amount or
    recipient, or with an amount that is not a positive finite number, the
    storefront sends nothing and logs nothing: it shows one alert and
    leaves its state as it was. *)
Theorem storefront_gate (d : Deps) (s : State) :
  isMainnet d = false
  \/ publicMode d = false
  \/ solAmount s = ""
  \/ recipient s = ""
  \/ Number_isFinite (parseFloat d (solAmount s)) = false
  \/ num_le0 (parseFloat d (solAmount s)) = true ->
  let r := StorefrontPurchaseCard.submit d s in
  snd (fst r) = s /\ exists msg, snd r = [Alert msg].
Proof.
  destruct s as [op sol rcp nt sb ap]. cbn [solAmount recipient]. intros H. cbv zeta.
  run_store no_hint;
    try (split; [reflexivity | eexists; reflexivity]);
    exfalso;
    repeat match goal with
           | Hb : _ || _ = false |- _ =>
               apply orb_false_elim in Hb; destruct Hb
           | Hb : negb _ = false |- _ => apply negb_false_iff in Hb
           end;
    destruct H as [H|[H|[H|[H|[H|H]]]]]; subst; try congruence;
    try discriminate.
Qed.

Lemma storefront_gate_witness :
  let d := Doubles.store_deps false (Ok (mkResp 200 (Ok (JObj [("ok", JBool true)])))) in
  isMainnet d = false
  /\ exists msg, snd (StorefrontPurchaseCard.submit d Doubles.store_form) = [Alert msg].
Proof.
  cbv zeta. split; [reflexivity|].
  apply (storefront_gate
           (Doubles.store_deps false (Ok (mkResp 200 (Ok (JObj [("ok", JBool true)])))))
           Doubles.store_form).
  left. reflexivity.
Defined.

(** X17. The storefront clears its form only on success: after a
    submission either amount, recipient and note are exactly as typed, or
    all three are empty, and then the backend had answered 2xx with a body
    whose [ok] is truthy, the record appended is the "Storefront request"
    one and the alert is the confirmation. *)
Theorem storefront_resets_only_on_success (d : Deps) (s : State) :
  let r := StorefrontPurchaseCard.submit d s in
  let s' := snd (fst r) in
  (solAmount s' = solAmount s /\ recipient s' = recipient s /\ note s' = note s
   /\ forall lbl, In (LogAction lbl) (snd r) ->
        lbl = "Storefront request failed (mainnet)"
        \/ lbl = "Storefront request error (mainnet)")
  \/ (solAmount s' = "" /\ recipient s' = "" /\ note s' = ""
      /\ exists url body resp data,
           snd r = [ Fetch url body;
                     LogAction ("Storefront request: " ++ solAmount s
                                ++ " SOL → AKSOL for " ++ recipient s
                                ++ " (manual fulfillment)");
                     Alert recorded_text ]
           /\ fetch d url body = Ok resp
           /\ resp_ok resp = true
           /\ resp_json resp = Ok data
           /\ truthy (prop data "ok") = true).
Proof.
  destruct s as [op sol rcp nt sb ap]. cbv zeta.
  run_store no_hint;
    first
      [ left; repeat split;
        intros lbl Hin; simpl in Hin;
        repeat match goal with
               | Hd : _ \/ _ |- _ => destruct Hd as [Hd|Hd]
               | Hd : False |- _ => destruct Hd
               | Hd : _ = LogAction _ |- _ =>
                   first [discriminate Hd | injection Hd as <-]
               end;
        first [left; reflexivity | right; reflexivity]
      | right; repeat split; do 4 eexists;
        split; [reflexivity|]; split; [eassumption|];
        split; [now apply negb_false_iff|]; split; [eassumption|];
        now apply negb_false_iff ].
Qed.

(** X18. Every storefront request is made on mainnet in the public view,
    names the cluster "mainnet-beta", carries the recipient typed (not
    empty) as [fromPubkey], a finite positive amount, and an estimate that
    is never [null]: the [null] branch of the estimate cannot be reached
    once the amount passed its check. The note is the trimmed note, or
    [null] when that is empty. *)
Theorem storefront_request_body (d : Deps) (s : State) (url : string) (body : Body) :
  In (Fetch url body) (snd (StorefrontPurchaseCard.submit d s)) ->
  isMainnet d = true
  /\ publicMode d = true
  /\ cluster body = "mainnet-beta"
  /\ fromPubkey body = recipient s
  /\ recipient s <> ""
  /\ amountSol body = parseFloat d (solAmount s)
  /\ Number_isFinite (amountSol body) = true
  /\ num_le0 (amountSol body) = false
  /\ estimatedAksol body = Some (times_hint d (amountSol body))
  /\ body_note body = nonempty (Some (trim (note s)))
  /\ body_note body <> Some "".
Proof.
  assert (Hgt : forall n, Number_isFinite n = true -> num_le0 n = false ->
                          num_gt0 n = true).
  { intros [| | |m e]; cbn; try discriminate. intros _ H.
    apply Z.leb_gt in H. now apply Z.ltb_lt. }
  assert (Hne : forall x, nonempty (Some x) <> Some "").
  { intros x. unfold nonempty. destruct (x =? "") eqn:Hx; [discriminate|].
    intros Heq. injection Heq as ->. discriminate Hx. }
  destruct s as [op sol rcp nt sb ap].
  run_store no_hint; intros Hin; split_in Hin; try discriminate Hin;
    injection Hin as <- <-;
    cbn [cluster fromPubkey amountSol estimatedAksol body_note];
    repeat match goal with
           | Hb : _ || _ = false |- _ =>
               apply orb_false_elim in Hb; destruct Hb
           | Hb : negb _ = false |- _ => apply negb_false_iff in Hb
           end;
    try match goal with
        | Hg : num_gt0 ?n = false |- _ =>
            rewrite (Hgt n) in Hg by assumption; discriminate Hg
        end;
    (repeat split; try assumption; try reflexivity;
     first [now apply String.eqb_neq | apply Hne]).
Qed.

Lemma storefront_request_body_witness :
  let d := Doubles.store_deps true (Ok (mkResp 200 (Ok (JObj [("ok", JBool true)])))) in
  let body := mkBody "Wallet1" (JFinite 1 (-1)) (Some (JFinite 100000 (-1)))
                     (Some "gift") "mainnet-beta" in
  In (Fetch "http://localhost:8080/aksol/storefront-purchase" body)
     (snd (StorefrontPurchaseCard.submit d Doubles.store_form))
  /\ estimatedAksol body = Some (times_hint d (amountSol body)).
Proof.
  cbv zeta. split; [left; reflexivity|].
  apply (storefront_request_body
           (Doubles.store_deps true (Ok (mkResp 200 (Ok (JObj [("ok", JBool true)])))))
           Doubles.store_form
           "http://localhost:8080/aksol/storefront-purchase"
           (mkBody "Wallet1" (JFinite 1 (-1)) (Some (JFinite 100000 (-1)))
                   (Some "gift") "mainnet-beta")).
  left. reflexivity.
Defined.

(** X19. A storefront answer whose body is not JSON is read as the empty
    object: even with a 2xx status the request counts as failed, the
    failure record is appended, the alert names the status, and the form
    keeps what was typed. *)
Theorem storefront_unparsable_body_fails
  (d : Deps) (s : State) (st : Z) (e : jsval) :
  (forall url body, fetch d url body = Ok (mkResp st (Err e))) ->
  let r := StorefrontPurchaseCard.submit d s in
  (exists url body, In (Fetch url body) (snd r)) ->
  exists url body,
    snd r = [ Fetch url body;
              LogAction "Storefront request failed (mainnet)";
              Alert ("Storefront request failed (status " ++ string_of_Z st
                     ++ "). Please try again or contact support.") ]
    /\ solAmount (snd (fst r)) = solAmount s
    /\ recipient (snd (fst r)) = recipient s
    /\ note (snd (fst r)) = note s.
Proof.
  intros H. destruct s as [op sol rcp nt sb ap]. cbv zeta.
  run_store ltac:(fun h => repeat first [rewrite H in h | progress cbn in h]);
    intros (url & body & Hin); split_in Hin; try discriminate Hin;
    (do 2 eexists; repeat split; reflexivity).
Qed.

Lemma storefront_unparsable_body_fails_witness :
  let d := Doubles.store_deps true (Ok (mkResp 200 (Err (Error "Unexpected token <")))) in
  (exists url body, In (Fetch url body) (snd (StorefrontPurchaseCard.submit d Doubles.store_form)))
  /\ In (LogAction "Storefront request failed (mainnet)")
        (snd (StorefrontPurchaseCard.submit d Doubles.store_form)).
Proof.
  cbv zeta. split; [do 2 eexists; left; reflexivity|].
  destruct (storefront_unparsable_body_fails
              (Doubles.store_deps true (Ok (mkResp 200 (Err (Error "Unexpected token <")))))
              Doubles.store_form 200 (Error "Unexpected token <")
              (fun _ _ => eq_refl)
              (ex_intro _ _ (ex_intro _ _ (or_introl eq_refl))))
    as (url & body & Ht & _).
  rewrite Ht. right. left. reflexivity.
Defined.

End Storefront.

(* ================================================================== *)
(** * The price ticker *)

Ltac run_ticker tac :=
  match goal with
  | |- context [PriceTickerBar.run ?d ?s] =>
      let r := fresh "r" in
      let Hr := fresh "Hr" in
      remember (PriceTickerBar.run d s) as r eqn:Hr;
      unfold PriceTickerBar.run, PriceTickerBar.fetchPrices,
        PriceTickerBar.read_sol, PriceTickerBar.read_aksol,
        PriceTickerBar.get, PriceTickerBar.setError,
        PriceTickerBar.setPrices in Hr;
      unfold_eff_in Hr; exec_in Hr tac; subst r;
      cbn [fst snd PriceTickerBar.prices PriceTickerBar.error
           PriceTickerBar.solUsd PriceTickerBar.aksolUsd
           PriceTickerBar.aksolPerSol PriceTickerBar.updatedAt]
  end.

Arguments PriceTickerBar.as_array : simpl never.
Arguments PriceTickerBar.pairs_of : simpl never.
Arguments PriceTickerBar.is_SOL : simpl never.
Arguments is_nullish : simpl never.

(** X25. Every run of the price ticker starts exactly two requests, the
    SOL quote and then the AKSOL quote, even when the first one fails, and
    lets no exception escape. A run that finds itself cancelled writes no
    prices at all. *)
Theorem ticker_two_requests_and_cancel (d : PriceTickerBar.Deps) (s : PriceTickerBar.State) :
  let r := PriceTickerBar.run d s in
  fst (fst r) = None
  /\ snd r = [ PriceTickerBar.Fetch PriceTickerBar.COINGECKO_SOL_URL;
               PriceTickerBar.Fetch PriceTickerBar.AKSOL_DEXSCREENER_URL ]
  /\ (PriceTickerBar.cancelled d = true ->
      PriceTickerBar.prices (snd (fst r)) = PriceTickerBar.prices s).
Proof.
  destruct s as [[su au ap ua] er]. cbv zeta.
  run_ticker no_hint;
    (repeat split; intros Hc;
     first [ reflexivity
           | match goal with
             | Hn : negb (PriceTickerBar.cancelled d) = true |- _ =>
                 rewrite Hc in Hn; discriminate Hn
             end ]).
Qed.

(** X26. A run that is not cancelled stamps the time and ends in one of
    two ways. Either something was thrown (a request failed, a body was
    not JSON, the first pair was [null]): the error text is set and the
    three prices stay as they were. Or both requests were answered: the
    error is cleared and all three prices are replaced by what this run
    read. A source answering outside 2xx blanks its prices instead of
    keeping the old ones. From a 2xx SOL quote the price is
    [Number(solJson.solana.usd)] when that field is neither [null] nor
    [undefined], and none otherwise. From a 2xx AKSOL quote with a first
    pair the USD price is [Number(priceUsd)] under the same condition, and
    the price per SOL is the reciprocal of [Number(priceNative)] when that
    field is present, one of the two token symbols is SOL and the number
    is positive; without a pair both are none. *)
Theorem ticker_fresh_or_kept (d : PriceTickerBar.Deps) (s : PriceTickerBar.State) :
  PriceTickerBar.cancelled d = false ->
  let s' := snd (fst (PriceTickerBar.run d s)) in
  let p := PriceTickerBar.prices s in
  let p' := PriceTickerBar.prices s' in
  PriceTickerBar.updatedAt p' = Some (PriceTickerBar.now_iso d)
  /\ ((PriceTickerBar.error s' = Some "Live pricing temporarily unavailable"
       /\ PriceTickerBar.solUsd p' = PriceTickerBar.solUsd p
       /\ PriceTickerBar.aksolUsd p' = PriceTickerBar.aksolUsd p
       /\ PriceTickerBar.aksolPerSol p' = PriceTickerBar.aksolPerSol p)
      \/ (PriceTickerBar.error s' = None
          /\ exists solResp akResp,
               PriceTickerBar.fetch d PriceTickerBar.COINGECKO_SOL_URL = Ok solResp
               /\ PriceTickerBar.fetch d PriceTickerBar.AKSOL_DEXSCREENER_URL = Ok akResp
               /\ (resp_ok solResp = false -> PriceTickerBar.solUsd p' = None)
               /\ (resp_ok akResp = false ->
                   PriceTickerBar.aksolUsd p' = None
                   /\ PriceTickerBar.aksolPerSol p' = None)
               /\ (forall v, PriceTickerBar.aksolPerSol p' = Some v ->
                     exists n, v = PriceTickerBar.reciprocal d n
                               /\ num_gt0 n = true)
               /\ (resp_ok solResp = true ->
                   exists solJson,
                     resp_json solResp = Ok solJson
                     /\ PriceTickerBar.solUsd p'
                        = if negb (is_nullish (prop (prop solJson "solana") "usd"))
                          then Some (PriceTickerBar.to_number d
                                       (prop (prop solJson "solana") "usd"))
                          else None)
               /\ (resp_ok akResp = true ->
                   exists aksolJson,
                     resp_json akResp = Ok aksolJson
                     /\ match PriceTickerBar.pairs_of aksolJson with
                        | [] =>
                            PriceTickerBar.aksolUsd p' = None
                            /\ PriceTickerBar.aksolPerSol p' = None
                        | mainPair :: _ =>
                            PriceTickerBar.aksolUsd p'
                            = (if negb (is_nullish (prop mainPair "priceUsd"))
                               then Some (PriceTickerBar.to_number d
                                            (prop mainPair "priceUsd"))
                               else None)
                            /\ PriceTickerBar.aksolPerSol p'
                               = (if negb (is_nullish (prop mainPair "priceNative"))
                                     && (PriceTickerBar.is_SOL
                                           (prop (prop mainPair "quoteToken") "symbol")
                                         || PriceTickerBar.is_SOL
                                              (prop (prop mainPair "baseToken") "symbol"))
                                  then
                                    if num_gt0 (PriceTickerBar.to_number d
                                                  (prop mainPair "priceNative"))
                                    then Some (PriceTickerBar.reciprocal d
                                                 (PriceTickerBar.to_number d
                                                    (prop mainPair "priceNative")))
                                    else None
                                  else None)
                        end))).
Proof.
  intros Hc. destruct s as [[su au ap ua] er]. cbv zeta.
  run_ticker ltac:(fun h => repeat first [rewrite Hc in h | progress cbn in h]);
    (split; [reflexivity|]);
    first
      [ left; repeat split; reflexivity
      | right; split; [reflexivity|];
        do 2 eexists; split; [reflexivity|]; split; [reflexivity|];
        split; [intros Hk; first [reflexivity | congruence]|];
        split; [intros Hk; first [split; reflexivity | congruence]|];
        split; [intros v Hv;
                first [ discriminate Hv
                      | injection Hv as <-; eexists; split; [reflexivity | assumption] ] |];
        split; intros Hk; first
          [ congruence
          | eexists; split; [eassumption|];
            repeat match goal with
                   | Hq : ?x = _ |- context [?x] => rewrite Hq
                   end;
            first [reflexivity | split; reflexivity] ] ].
Qed.

Lemma ticker_two_requests_and_cancel_witness :
  let d := Doubles.ticker_deps (Ok (mkResp 200 (Ok (JObj []))))
                               (Ok (mkResp 200 (Ok (JObj [])))) true in
  PriceTickerBar.cancelled d = true
  /\ PriceTickerBar.prices (snd (fst (PriceTickerBar.run d Doubles.ticker_shown)))
     = PriceTickerBar.prices Doubles.ticker_shown.
Proof.
  cbv zeta. split; [reflexivity|].
  apply (ticker_two_requests_and_cancel
           (Doubles.ticker_deps (Ok (mkResp 200 (Ok (JObj []))))
                                (Ok (mkResp 200 (Ok (JObj [])))) true)
           Doubles.ticker_shown).
  reflexivity.
Defined.

Lemma ticker_fresh_or_kept_witness :
  let d := Doubles.ticker_deps
             (Ok (mkResp 200 (Ok (JObj [("solana",
                                         JObj [("usd", JNum (JFinite 150 0))])]))))
             (Ok (mkResp 200 (Ok (JObj [])))) false in
  PriceTickerBar.cancelled d = false
  /\ PriceTickerBar.updatedAt
       (PriceTickerBar.prices (snd (fst (PriceTickerBar.run d PriceTickerBar.init))))
     = Some "2024-01-01T00:00:30.000Z".
Proof.
  cbv zeta. split; [reflexivity|].
  apply (ticker_fresh_or_kept
           (Doubles.ticker_deps
              (Ok (mkResp 200 (Ok (JObj [("solana",
                                          JObj [("usd", JNum (JFinite 150 0))])]))))
              (Ok (mkResp 200 (Ok (JObj [])))) false)
           PriceTickerBar.init).
  reflexivity.
Defined.
